(** * Workflow enhancer: a shallow embedding of [enhance_workflows.py]

    The script rewrites n8n workflow documents: every HTTP Request node
    receives a timeout, a retry policy, response and redirect options and
    default headers, and two fixed error-handling nodes are appended to a
    workflow that holds at least one HTTP Request node.

    The embedding follows the Python text.  Values are the values
    [json.load] produces; a Python dict is an association list in
    insertion order; an operation that can raise returns in the [result]
    monad.  The documents come from [json.load], so they are trees: no
    two places of a document share an object, and the in-place updates of
    the script are the functional updates below.  Text is held as its
    UTF-8 bytes; [str.lower] and [repr] are taken as given (class
    [PyStr]), so that the statements hold of names, URLs and paths in any
    script, and the instances at the end run on ASCII text. *)

From Stdlib Require Import ZArith List String Ascii Bool Lia PrimFloat.
Import ListNotations.
Local Open Scope string_scope.
Local Open Scope Z_scope.

(** ** Values *)

(** What [json.load] returns: [None], [bool], [int], [float], [str],
    [list] and [dict].  A dict keeps its keys in insertion order. *)
#[local] Set Warnings "-register-all".

Inductive json : Type :=
| JNull
| JBool (b : bool)
| JInt (n : Z)
| JFloat (f : float)
| JStr (s : string)
| JArr (items : list json)
| JObj (fields : list (string * json)).

Definition dict := list (string * json).

(** ** Exceptions and the error monad *)

Inductive exn : Type :=
| AttributeError (ty attr : string)
| TypeError (msg : string)
| KeyError (key : string)
| OSError (msg : string)
| JSONDecodeError (msg : string).

(** [str(e)] *)
Definition exn_str (e : exn) : string :=
  match e with
  | AttributeError ty attr =>
      "'" ++ ty ++ "' object has no attribute '" ++ attr ++ "'"
  | TypeError msg => msg
  | KeyError key => "'" ++ key ++ "'"
  | OSError msg => msg
  | JSONDecodeError msg => msg
  end.

Inductive result (A : Type) : Type :=
| Ok (a : A)
| Raise (e : exn).
Arguments Ok {A} a.
Arguments Raise {A} e.

Definition bind {A B : Type} (c : result A) (k : A -> result B) : result B :=
  match c with
  | Ok a => k a
  | Raise e => Raise e
  end.

Notation "x <- c ;; k" := (bind c (fun x => k))
  (at level 61, c at next level, right associativity).
Notation "' pat <- c ;; k" := (bind c (fun x => match x with pat => k end))
  (at level 61, pat pattern, c at next level, right associativity).

(** ** Dictionaries in insertion order *)

Section Dict.
Context {V : Type}.

(** [d.get(k)] on the association list: the first binding of [k]. *)
Fixpoint dict_get (d : list (string * V)) (k : string) : option V :=
  match d with
  | [] => None
  | (k', v) :: d' => if String.eqb k k' then Some v else dict_get d' k
  end.

(** [d[k] = v]: an existing key keeps its place, a new key goes last. *)
Fixpoint dict_set (d : list (string * V)) (k : string) (v : V)
  : list (string * V) :=
  match d with
  | [] => [(k, v)]
  | (k', v') :: d' =>
      if String.eqb k k' then (k', v) :: d'
      else (k', v') :: dict_set d' k v
  end.

Definition dict_mem (d : list (string * V)) (k : string) : bool :=
  match dict_get d k with Some _ => true | None => false end.
End Dict.

(** ** Python primitives on values *)

Definition type_name (v : json) : string :=
  match v with
  | JNull => "NoneType"
  | JBool _ => "bool"
  | JInt _ => "int"
  | JFloat _ => "float"
  | JStr _ => "str"
  | JArr _ => "list"
  | JObj _ => "dict"
  end.

(** Truth value of an object, as [if v] tests it. *)
Definition truthy (v : json) : bool :=
  match v with
  | JNull => false
  | JBool b => b
  | JInt n => negb (n =? 0)
  | JFloat f => negb (PrimFloat.eqb f 0%float)
  | JStr s => negb (String.eqb s "")
  | JArr l => match l with [] => false | _ => true end
  | JObj d => match d with [] => false | _ => true end
  end.

(** [v != s] for a string literal [s]. *)
Definition py_ne_str (v : json) (s : string) : bool :=
  match v with
  | JStr s' => negb (String.eqb s' s)
  | _ => true
  end.

(** The value under [k], or [dflt] when the dict has no such key. *)
Definition get_or (d : dict) (k : string) (dflt : json) : json :=
  match dict_get d k with Some v => v | None => dflt end.

(** [o.get(k, dflt)]: only a dict has [get]. *)
Definition py_get (o : json) (k : string) (dflt : json) : result json :=
  match o with
  | JObj d => Ok (get_or d k dflt)
  | _ => Raise (AttributeError (type_name o) "get")
  end.

(** [o[k]] for a string key. *)
Definition py_getitem (o : json) (k : string) : result json :=
  match o with
  | JObj d =>
      match dict_get d k with
      | Some v => Ok v
      | None => Raise (KeyError k)
      end
  | JArr _ => Raise (TypeError "list indices must be integers or slices, not str")
  | JStr _ => Raise (TypeError "string indices must be integers, not 'str'")
  | _ => Raise (TypeError ("'" ++ type_name o ++ "' object is not subscriptable"))
  end.

(** [o[k] = v] for a string key. *)
Definition py_setitem (o : json) (k : string) (v : json) : result json :=
  match o with
  | JObj d => Ok (JObj (dict_set d k v))
  | JArr _ => Raise (TypeError "list indices must be integers or slices, not str")
  | _ => Raise (TypeError
                  ("'" ++ type_name o ++ "' object does not support item assignment"))
  end.

(** [o.copy()]: dicts and lists have it. *)
Definition py_copy (o : json) : result json :=
  match o with
  | JObj _ | JArr _ => Ok o
  | _ => Raise (AttributeError (type_name o) "copy")
  end.

(** ** Lower-casing *)

(** Text is held as its UTF-8 bytes.  On ASCII text [str.lower] sends
    [A]..[Z] to [a]..[z] and keeps every other character. *)
Definition ascii_to_lower (c : ascii) : ascii :=
  let n := nat_of_ascii c in
  if (Nat.leb 65 n && Nat.leb n 90)%bool then ascii_of_nat (n + 32) else c.

Fixpoint ascii_lower (s : string) : string :=
  match s with
  | EmptyString => EmptyString
  | String c s' => String (ascii_to_lower c) (ascii_lower s')
  end.

(** Every byte of the text is below 128. *)
Fixpoint is_ascii (s : string) : bool :=
  match s with
  | EmptyString => true
  | String c s' => (Nat.ltb (nat_of_ascii c) 128 && is_ascii s')%bool
  end.

(** [repr] of ASCII text: between single quotes, or between double
    quotes when the text holds a single quote and no double quote; a
    backslash and the enclosing quote are escaped, tab, newline and
    carriage return are written [\t], [\n], [\r], and the other control
    characters [\x] and two hexadecimal digits. *)
Definition hex_digit (n : nat) : ascii :=
  nth n (list_ascii_of_string "0123456789abcdef") "0"%char.

Definition repr_char (quote c : ascii) : string :=
  let n := nat_of_ascii c in
  if (Ascii.eqb c quote || Ascii.eqb c "\"%char)%bool
  then String "\" (String c EmptyString)
  else if Nat.eqb n 9 then "\t"
  else if Nat.eqb n 10 then "\n"
  else if Nat.eqb n 13 then "\r"
  else if (Nat.ltb n 32 || Nat.eqb n 127)%bool
  then String "\" (String "x"
         (String (hex_digit (Nat.div n 16))
            (String (hex_digit (Nat.modulo n 16)) EmptyString)))
  else String c EmptyString.

Fixpoint repr_chars (quote : ascii) (s : string) : string :=
  match s with
  | EmptyString => EmptyString
  | String c s' => repr_char quote c ++ repr_chars quote s'
  end.

Fixpoint has_char (c : ascii) (s : string) : bool :=
  match s with
  | EmptyString => false
  | String c' s' => (Ascii.eqb c c' || has_char c s')%bool
  end.

Definition ascii_repr (s : string) : string :=
  let quote :=
    if (has_char "'"%char s && negb (has_char "034"%char s))%bool
    then "034"%char else "'"%char in
  String quote (repr_chars quote s ++ String quote EmptyString).

(** The two operations of [str] the script relies on: [str.lower], and
    [repr], which the messages of [OSError] apply to the path.  Outside
    ASCII they follow the Unicode character tables ([str.lower] sends the
    Kelvin sign to [k] and a dotted capital I to [i] and a combining
    dot), which are not written out here: the development takes both
    operations as given and relies on nothing but what they do to ASCII
    text. *)
Class PyStr : Type := {
  lower : string -> string;
  lower_ascii_text :
    forall s : string, is_ascii s = true -> lower s = ascii_lower s;
  repr : string -> string;
  repr_ascii_text :
    forall s : string, is_ascii s = true -> repr s = ascii_repr s
}.

(** The operations cut down to ASCII text, for running the definitions
    on ASCII names, URLs and paths. *)
Definition ASCII_TEXT : PyStr :=
  {| lower := ascii_lower; lower_ascii_text := fun s _ => eq_refl;
     repr := ascii_repr; repr_ascii_text := fun s _ => eq_refl |}.

Section Enhancer.
Context {py_str : PyStr}.

(** [v.lower()]: only a str has [lower]. *)
Definition py_lower (v : json) : result string :=
  match v with
  | JStr s => Ok (lower s)
  | _ => Raise (AttributeError (type_name v) "lower")
  end.

(** [url.lower() if url else ""] *)
Definition lower_if_truthy (url : json) : result string :=
  if truthy url then py_lower url else Ok "".

(** [kw in s] on strings: [kw] occurs in [s] as a substring. *)
Fixpoint str_in (kw s : string) : bool :=
  (String.prefix kw s
   || match s with
      | EmptyString => false
      | String _ s' => str_in kw s'
      end)%bool.

(** [any(keyword in s for keyword in kws)] *)
Definition any_in (kws : list string) (s : string) : bool :=
  existsb (fun keyword => str_in keyword s) kws.

(** [k in c] for a string [k]: a key of a dict, an element of a list, a
    substring of a str. *)
Definition py_in (k : string) (c : json) : result bool :=
  match c with
  | JObj d => Ok (dict_mem d k)
  | JArr l => Ok (existsb (fun x => negb (py_ne_str x k)) l)
  | JStr s => Ok (str_in k s)
  | _ => Raise (TypeError
                  ("argument of type '" ++ type_name c ++ "' is not iterable"))
  end.

(** ** Classification rules *)

Definition HTTP_REQUEST : string := "n8n-nodes-base.httpRequest".

Definition get_timeout_config (node_name url : json) : result Z :=
  node_lower <- py_lower node_name ;;
  url_lower <- lower_if_truthy url ;;
  if any_in ["openai"; "gpt"; "ai"; "ml"] node_lower then Ok 30000
  else if any_in ["email"; "sendgrid"; "mail"] node_lower then Ok 15000
  else if any_in ["webhook"; "callback"; "dashboard"] node_lower then Ok 15000
  else if any_in ["twitter"; "facebook"; "linkedin"; "instagram"] url_lower
       then Ok 20000
  else if (str_in "slack" node_lower || str_in "slack" url_lower)%bool
       then Ok 10000
  else if any_in ["shopify"; "amazon"; "ebay"] url_lower then Ok 25000
  else Ok 15000.

Definition retry_policy (max_attempts wait_between : Z) : json :=
  JObj [("enabled", JBool true);
        ("maxAttempts", JInt max_attempts);
        ("waitBetween", JInt wait_between)].

Definition get_retry_config (node_name url : json) : result json :=
  node_lower <- py_lower node_name ;;
  url_lower <- lower_if_truthy url ;;
  if any_in ["critical"; "important"; "sync"] node_lower
  then Ok (retry_policy 3 2000)
  else if any_in ["openai"; "gpt"; "ai"] node_lower
  then Ok (retry_policy 2 3000)
  else if any_in ["notification"; "alert"; "email"] node_lower
  then Ok (retry_policy 3 1000)
  else Ok (retry_policy 3 1500).

(** ** Header normalizer *)

(** [if key not in headers: headers[key] = value] *)
Definition set_default (headers : json) (key value : string) : result json :=
  present <- py_in key headers ;;
  if present then Ok headers else py_setitem headers key (JStr value).

Definition get_enhanced_headers (existing_headers url : json) : result json :=
  headers <- (if truthy existing_headers then py_copy existing_headers
              else Ok (JObj [])) ;;
  headers <- set_default headers "User-Agent" "n8n-workflow/1.0" ;;
  headers <- set_default headers "Content-Type" "application/json" ;;
  headers <- set_default headers "Accept" "application/json, text/plain, */*" ;;
  headers <- set_default headers "Connection" "keep-alive" ;;
  Ok headers.

(** ** Node enhancer *)

Definition enhance_http_node (node : json) : result (json * bool) :=
  type <- py_get node "type" JNull ;;
  if py_ne_str type HTTP_REQUEST then Ok (node, false)
  else
    parameters <- py_get node "parameters" (JObj []) ;;
    node_name <- py_get node "name" (JStr "HTTP Request") ;;
    url <- py_get parameters "url" (JStr "") ;;
    options <- py_get parameters "options" (JObj []) ;;
    timeout <- get_timeout_config node_name url ;;
    options <- py_setitem options "timeout" (JInt timeout) ;;
    retry_config <- get_retry_config node_name url ;;
    options <- py_setitem options "retry" retry_config ;;
    options <- py_setitem options "response"
                 (JObj [("response", JObj [("neverError", JBool false)])]) ;;
    options <- py_setitem options "redirect"
                 (JObj [("followRedirects", JBool true);
                        ("maxRedirects", JInt 3)]) ;;
    existing_headers <- py_get parameters "headers" (JObj []) ;;
    enhanced_headers <- get_enhanced_headers existing_headers url ;;
    parameters <- py_setitem parameters "headers" enhanced_headers ;;
    parameters <- py_setitem parameters "options" options ;;
    node <- py_setitem node "parameters" parameters ;;
    node <- py_setitem node "onError" (JStr "continueRegularOutput") ;;
    Ok (node, true).


(** ** Auxiliary node generator *)

(** The inline scripts of the two error-handling nodes, as the source
    holds them between its triple quotes. *)
Definition error_handler_jsCode : string := "
// Global Error Handler for HTTP Requests
const items = [];

// Check if this is an error from an HTTP request
const isHttpError = $json.error && ($json.error.httpCode || $json.error.message);

if (isHttpError) {
    const errorInfo = {
        timestamp: new Date().toISOString(),
        error_type: 'http_request_error',
        node_name: $json.node?.name || 'Unknown Node',
        http_code: $json.error.httpCode || null,
        error_message: $json.error.message || 'Unknown error',
        retry_count: $json.error.retryCount || 0,
        url: $json.error.config?.url || 'Unknown URL',
        method: $json.error.config?.method || 'Unknown Method'
    };
    
    // Determine error severity
    const httpCode = errorInfo.http_code;
    let severity = 'medium';
    let shouldRetry = true;
    let fallbackAction = 'log_and_continue';
    
    if (httpCode) {
        if (httpCode >= 500) {
            severity = 'high';
            fallbackAction = 'retry_with_delay';
        } else if (httpCode === 429) {
            severity = 'medium';
            fallbackAction = 'retry_with_exponential_backoff';
        } else if (httpCode === 404) {
            severity = 'low';
            shouldRetry = false;
            fallbackAction = 'use_fallback_data';
        } else if (httpCode >= 400) {
            severity = 'medium';
            shouldRetry = false;
            fallbackAction = 'log_and_continue';
        }
    }
    
    // Create error response
    const errorResponse = {
        ...errorInfo,
        severity: severity,
        should_retry: shouldRetry,
        fallback_action: fallbackAction,
        recommendations: [
            httpCode === 429 ? 'Rate limited - consider implementing exponential backoff' : null,
            httpCode >= 500 ? 'Server error - check API status and retry' : null,
            httpCode === 404 ? 'Resource not found - verify URL and parameters' : null,
            httpCode >= 400 && httpCode < 500 ? 'Client error - check request parameters' : null
        ].filter(Boolean)
    };
    
    items.push(errorResponse);
} else {
    // Not an HTTP error, pass through
    items.push($json);
}

return items;
".

Definition fallback_jsCode : string := "
// Fallback Data Provider
const items = [];

// Generate fallback data based on the failed operation
const errorInfo = $json;
const nodeName = errorInfo.node_name || '';

let fallbackData = {
    status: 'fallback_data',
    timestamp: new Date().toISOString(),
    original_node: nodeName,
    message: 'Using fallback data due to API failure'
};

// Provide specific fallback data based on node type
if (nodeName.toLowerCase().includes('ai') || nodeName.toLowerCase().includes('openai')) {
    fallbackData.recommendations = [
        {
            title: 'API Unavailable - Review Manually',
            description: 'The AI service is currently unavailable. Please review this request manually.',
            priority: 'high',
            category: 'system'
        }
    ];
} else if (nodeName.toLowerCase().includes('email') || nodeName.toLowerCase().includes('notification')) {
    fallbackData.notification_status = 'failed';
    fallbackData.retry_scheduled = true;
    fallbackData.retry_time = new Date(Date.now() + 300000).toISOString(); // 5 minutes
} else if (nodeName.toLowerCase().includes('data') || nodeName.toLowerCase().includes('fetch')) {
    fallbackData.data = {};
    fallbackData.cached_data_used = true;
} else {
    fallbackData.generic_fallback = true;
}

items.push(fallbackData);
return items;
".

Definition error_handler_node : json :=
  JObj [("parameters", JObj [("jsCode", JStr error_handler_jsCode)]);
        ("id", JStr "global-http-error-handler");
        ("name", JStr "Global HTTP Error Handler");
        ("type", JStr "n8n-nodes-base.code");
        ("typeVersion", JInt 2);
        ("position", JArr [JInt 1800; JInt 300])].

Definition fallback_node : json :=
  JObj [("parameters", JObj [("jsCode", JStr fallback_jsCode)]);
        ("id", JStr "fallback-data-provider");
        ("name", JStr "Fallback Data Provider");
        ("type", JStr "n8n-nodes-base.code");
        ("typeVersion", JInt 2);
        ("position", JArr [JInt 2000; JInt 300])].

(** [for x in v]: the elements of a list, the keys of a dict, the
    characters of a str. *)
Definition py_iter (v : json) : result (list json) :=
  match v with
  | JArr l => Ok l
  | JObj d => Ok (map (fun kv => JStr (fst kv)) d)
  | JStr s => Ok (map (fun c => JStr (String c EmptyString)) (list_ascii_of_string s))
  | _ => Raise (TypeError ("'" ++ type_name v ++ "' object is not iterable"))
  end.

(** [[node for node in nodes if node.get('type') == HTTP_REQUEST]] *)
Fixpoint http_nodes_of (nodes : list json) : result (list json) :=
  match nodes with
  | [] => Ok []
  | node :: rest =>
      type <- py_get node "type" JNull ;;
      selected <- http_nodes_of rest ;;
      Ok (if py_ne_str type HTTP_REQUEST then selected else node :: selected)
  end.

Definition add_error_handling_nodes (workflow : json) : result (list json) :=
  nodes <- py_get workflow "nodes" (JArr []) ;;
  items <- py_iter nodes ;;
  http_nodes <- http_nodes_of items ;;
  match http_nodes with
  | [] => Ok []
  | _ => Ok [error_handler_node; fallback_node]
  end.

(** ** Workflow processor *)

Record timeout_configuration : Type := {
  tc_node : json;
  tc_timeout : json;
  tc_reason : string
}.

Record retry_configuration : Type := {
  rc_node : json;
  rc_max_attempts : json;
  rc_wait_between : json
}.

Record improvements : Type := {
  file : string;
  http_nodes_enhanced : Z;
  error_nodes_added : Z;
  timeout_configurations : list timeout_configuration;
  retry_configurations : list retry_configuration;
  specific_improvements : list string
}.

(** What [enhance_workflow] returns: the improvements of a file, or the
    two-entry record [{'file': ..., 'error': ...}]. *)
Inductive summary : Type :=
| Improved (i : improvements)
| Failed (file_name error : string).

Definition summary_file (s : summary) : string :=
  match s with
  | Improved i => file i
  | Failed f _ => f
  end.

(** [v >= n] against an integer literal, whose float is [nf]. *)
Definition py_ge (v : json) (n : Z) (nf : float) : result bool :=
  match v with
  | JInt t => Ok (n <=? t)
  | JBool b => Ok (n <=? (if b then 1 else 0))
  | JFloat f => Ok (PrimFloat.leb nf f)
  | _ => Raise (TypeError
                  ("'>=' not supported between instances of '"
                   ++ type_name v ++ "' and 'int'"))
  end.

Definition _get_timeout_reason (node_name url timeout : json) : result string :=
  c <- py_ge timeout 30000 30000%float ;;
  if c then Ok "Extended timeout for AI/ML operations" else
  c <- py_ge timeout 25000 25000%float ;;
  if c then Ok "Long timeout for e-commerce API operations" else
  c <- py_ge timeout 20000 20000%float ;;
  if c then Ok "Medium timeout for social media APIs" else
  c <- py_ge timeout 15000 15000%float ;;
  if c then Ok "Standard timeout for webhook/dashboard operations"
  else Ok "Quick timeout for simple operations".

Definition _get_specific_improvement (node_name url : json) : result string :=
  node_lower <- py_lower node_name ;;
  url_lower <- lower_if_truthy url ;;
  if (str_in "openai" node_lower || str_in "gpt" node_lower)%bool
  then Ok "Added cost-aware retry logic for AI API calls"
  else if (str_in "email" node_lower || str_in "sendgrid" node_lower)%bool
  then Ok "Enhanced email delivery reliability with retry logic"
  else if (str_in "slack" node_lower || str_in "slack" url_lower)%bool
  then Ok "Improved Slack notification reliability"
  else if any_in ["shopify"; "amazon"; "ebay"] url_lower
  then Ok "Added robust error handling for e-commerce API integration"
  else if (str_in "webhook" node_lower || str_in "callback" node_lower)%bool
  then Ok "Enhanced webhook reliability with proper timeout and retry"
  else Ok "Added comprehensive error handling and retry logic".

(** The body of [if self.enhance_http_node(node):] in the loop of
    [enhance_workflow]: one entry per list for the enhanced node. *)
Definition record_improvement (node : json) (imp : improvements)
  : result improvements :=
  let enhanced := http_nodes_enhanced imp + 1 in
  node_name <- py_get node "name" (JStr "HTTP Request") ;;
  parameters <- py_get node "parameters" (JObj []) ;;
  url <- py_get parameters "url" (JStr "") ;;
  parameters <- py_get node "parameters" (JObj []) ;;
  options <- py_get parameters "options" (JObj []) ;;
  timeout <- py_get options "timeout" (JInt 15000) ;;
  parameters <- py_get node "parameters" (JObj []) ;;
  options <- py_get parameters "options" (JObj []) ;;
  retry_config <- py_get options "retry" (JObj []) ;;
  reason <- _get_timeout_reason node_name url timeout ;;
  max_attempts <- py_get retry_config "maxAttempts" (JInt 3) ;;
  wait_between <- py_get retry_config "waitBetween" (JInt 1500) ;;
  improvement <- _get_specific_improvement node_name url ;;
  Ok {| file := file imp;
        http_nodes_enhanced := enhanced;
        error_nodes_added := error_nodes_added imp;
        timeout_configurations :=
          timeout_configurations imp
          ++ [{| tc_node := node_name; tc_timeout := timeout;
                 tc_reason := reason |}];
        retry_configurations :=
          retry_configurations imp
          ++ [{| rc_node := node_name; rc_max_attempts := max_attempts;
                 rc_wait_between := wait_between |}];
        specific_improvements := specific_improvements imp ++ [improvement] |}.

(** [for node in nodes:] of [enhance_workflow].  The nodes are updated
    in place; the list returned holds them after the loop. *)
Fixpoint enhance_nodes (nodes : list json) (imp : improvements)
  : result (list json * improvements) :=
  match nodes with
  | [] => Ok ([], imp)
  | node :: rest =>
      '(node, enhanced) <- enhance_http_node node ;;
      imp <- (if enhanced then record_improvement node imp else Ok imp) ;;
      '(rest, imp) <- enhance_nodes rest imp ;;
      Ok (node :: rest, imp)
  end.

(** [l.extend(more)]: only a list has [extend]. *)
Definition py_extend (l : json) (more : list json) : result json :=
  match l with
  | JArr items => Ok (JArr (items ++ more))
  | _ => Raise (AttributeError (type_name l) "extend")
  end.

(** The effect of the loop on the document: the list under ["nodes"]
    holds the updated nodes.  (Iterating a dict or a str yields fresh
    strings, which the loop cannot update.) *)
Definition store_nodes (workflow nodes : json) (items : list json) : json :=
  match workflow, nodes with
  | JObj d, JArr _ =>
      if dict_mem d "nodes" then JObj (dict_set d "nodes" (JArr items))
      else workflow
  | _, _ => workflow
  end.

Definition new_improvements (file_name : string) : improvements :=
  {| file := file_name;
     http_nodes_enhanced := 0;
     error_nodes_added := 0;
     timeout_configurations := [];
     retry_configurations := [];
     specific_improvements := [] |}.

Definition with_error_nodes_added (imp : improvements) (n : Z) : improvements :=
  {| file := file imp;
     http_nodes_enhanced := http_nodes_enhanced imp;
     error_nodes_added := n;
     timeout_configurations := timeout_configurations imp;
     retry_configurations := retry_configurations imp;
     specific_improvements := specific_improvements imp |}.

(** [enhance_workflow] between [json.load] and [json.dump]: the work on
    the loaded document. *)
Definition enhance_document (file_name : string) (workflow : json)
  : result (json * improvements) :=
  let imp := new_improvements file_name in
  nodes <- py_get workflow "nodes" (JArr []) ;;
  items <- py_iter nodes ;;
  '(items, imp) <- enhance_nodes items imp ;;
  let workflow := store_nodes workflow nodes items in
  error_nodes <- add_error_handling_nodes workflow ;;
  nodes <- py_getitem workflow "nodes" ;;
  nodes <- py_extend nodes error_nodes ;;
  workflow <- py_setitem workflow "nodes" nodes ;;
  Ok (workflow, with_error_nodes_added imp (Z.of_nat (List.length error_nodes))).

(** *** Files *)

(** The store stands for the directory of workflow files: a path names
    a file of its own, and links that make two paths name one file are
    not part of it.  A file holds a JSON document, or bytes that
    [json.load] rejects with the given message, or is a directory.
    [json.dump] followed by [json.load] gives the document back, so a
    file written by the script is held as the document itself.
    [readable] and [writable] say whether the file can be opened for
    reading and whether a write to it completes: a write that is refused
    leaves the file as it was, and a write that breaks off part-way,
    leaving a truncated file, has no counterpart here. *)
Inductive contents : Type :=
| Document (doc : json)
| Garbage (decode_error : string)
| Directory.

Record file_entry : Type := {
  data : contents;
  readable : bool;
  writable : bool
}.

Definition filesystem := list (string * file_entry).

(** [os.path.basename]: what follows the last slash. *)
Fixpoint basename_from (current rest : string) : string :=
  match rest with
  | EmptyString => current
  | String c rest' =>
      if Ascii.eqb c "/"%char then basename_from EmptyString rest'
      else basename_from (current ++ String c EmptyString) rest'
  end.

Definition basename (path : string) : string := basename_from EmptyString path.

(** [str(e)] of the [OSError] that [open] raises, as Linux words it. *)
Definition os_error (errno : string) (strerror : string) (path : string) : exn :=
  OSError ("[Errno " ++ errno ++ "] " ++ strerror ++ ": " ++ repr path).

(** [with open(path, 'r') as f: json.load(f)] *)
Definition load (fs : filesystem) (path : string) : result json :=
  match dict_get fs path with
  | None => Raise (os_error "2" "No such file or directory" path)
  | Some f =>
      if readable f then
        match data f with
        | Document doc => Ok doc
        | Garbage msg => Raise (JSONDecodeError msg)
        | Directory => Raise (os_error "21" "Is a directory" path)
        end
      else Raise (os_error "13" "Permission denied" path)
  end.

(** [with open(path, 'w') as f: json.dump(workflow, f, indent=2)] *)
Definition save (fs : filesystem) (path : string) (workflow : json)
  : result filesystem :=
  match dict_get fs path with
  | None =>
      Ok (dict_set fs path
            {| data := Document workflow; readable := true; writable := true |})
  | Some f =>
      match data f with
      | Directory => Raise (os_error "21" "Is a directory" path)
      | _ =>
          if writable f then
            Ok (dict_set fs path
                  {| data := Document workflow; readable := readable f;
                     writable := true |})
          else Raise (os_error "13" "Permission denied" path)
      end
  end.

(** The [try] block of [enhance_workflow]. *)
Definition enhance_workflow_try (fs : filesystem) (workflow_path : string)
  : result (filesystem * improvements) :=
  workflow <- load fs workflow_path ;;
  '(workflow, imp) <- enhance_document (basename workflow_path) workflow ;;
  fs <- save fs workflow_path workflow ;;
  Ok (fs, imp).

(** [try: ... except Exception as e: return {'file': ..., 'error': str(e)}] *)
Definition enhance_workflow (fs : filesystem) (workflow_path : string)
  : filesystem * summary :=
  match enhance_workflow_try fs workflow_path with
  | Ok (fs', imp) => (fs', Improved imp)
  | Raise e => (fs, Failed (basename workflow_path) (exn_str e))
  end.

(** ** Batch driver *)

(** The loop of [enhance_all_workflows] over [workflow_files], the list
    [glob.glob] returned. *)
Fixpoint enhance_all_workflows (fs : filesystem) (workflow_files : list string)
  : filesystem * list summary :=
  match workflow_files with
  | [] => (fs, [])
  | workflow_file :: rest =>
      let '(fs, improvements) := enhance_workflow fs workflow_file in
      let '(fs, all_improvements) := enhance_all_workflows fs rest in
      (fs, improvements :: all_improvements)
  end.

(** ** The rule tables of the specification *)

(** An ordered list of (predicate, result) pairs over the lower-cased
    name and URL; the first rule that applies gives the result. *)
Record rule (A : Type) : Type := {
  applies : string -> string -> bool;
  outcome : A
}.
Arguments applies {A} r.
Arguments outcome {A} r.

Fixpoint first_match {A : Type} (rules : list (rule A)) (default : A)
  (name url : string) : A :=
  match rules with
  | [] => default
  | r :: rules' =>
      if applies r name url then outcome r
      else first_match rules' default name url
  end.

Definition name_has (kws : list string) : string -> string -> bool :=
  fun name _ => any_in kws name.
Definition url_has (kws : list string) : string -> string -> bool :=
  fun _ url => any_in kws url.
Definition either_has (kw : string) : string -> string -> bool :=
  fun name url => (str_in kw name || str_in kw url)%bool.

Definition AI_ML_KEYWORDS := ["openai"; "gpt"; "ai"; "ml"].
Definition EMAIL_KEYWORDS := ["email"; "sendgrid"; "mail"].
Definition WEBHOOK_KEYWORDS := ["webhook"; "callback"; "dashboard"].
Definition SOCIAL_KEYWORDS := ["twitter"; "facebook"; "linkedin"; "instagram"].
Definition ECOMMERCE_KEYWORDS := ["shopify"; "amazon"; "ebay"].
Definition CRITICAL_KEYWORDS := ["critical"; "important"; "sync"].
Definition AI_KEYWORDS := ["openai"; "gpt"; "ai"].
Definition NOTIFICATION_KEYWORDS := ["notification"; "alert"; "email"].

Definition timeout_rules : list (rule Z) :=
  [ {| applies := name_has AI_ML_KEYWORDS; outcome := 30000 |};
    {| applies := name_has EMAIL_KEYWORDS; outcome := 15000 |};
    {| applies := name_has WEBHOOK_KEYWORDS; outcome := 15000 |};
    {| applies := url_has SOCIAL_KEYWORDS; outcome := 20000 |};
    {| applies := either_has "slack"; outcome := 10000 |};
    {| applies := url_has ECOMMERCE_KEYWORDS; outcome := 25000 |} ].

Definition DEFAULT_TIMEOUT : Z := 15000.

Definition retry_rules : list (rule json) :=
  [ {| applies := name_has CRITICAL_KEYWORDS; outcome := retry_policy 3 2000 |};
    {| applies := name_has AI_KEYWORDS; outcome := retry_policy 2 3000 |};
    {| applies := name_has NOTIFICATION_KEYWORDS; outcome := retry_policy 3 1000 |} ].

Definition DEFAULT_RETRY : json := retry_policy 3 1500.

(** The four default headers, in the order the normalizer adds them. *)
Definition DEFAULT_HEADERS : dict :=
  [("User-Agent", JStr "n8n-workflow/1.0");
   ("Content-Type", JStr "application/json");
   ("Accept", JStr "application/json, text/plain, */*");
   ("Connection", JStr "keep-alive")].

(** The existing headers followed by the defaults whose key is absent. *)
Definition merged_headers (existing : dict) : dict :=
  (existing
   ++ filter (fun kv => negb (dict_mem existing (fst kv))) DEFAULT_HEADERS)%list.


(** ** Shapes of nodes *)

(** The node is an HTTP Request node: [node.get('type')] equals the tag. *)
Definition is_http_request (node : dict) : bool :=
  negb (py_ne_str (get_or node "type" JNull) HTTP_REQUEST).

(** The entries [enhance_http_node] assigns to at the top of a node. *)
Definition is_enhanced_field (k : string) : bool :=
  (String.eqb k "parameters" || String.eqb k "onError")%bool.

Definition RESPONSE_OPTION : json :=
  JObj [("response", JObj [("neverError", JBool false)])].

Definition REDIRECT_OPTION : json :=
  JObj [("followRedirects", JBool true); ("maxRedirects", JInt 3)].

(** The options after the four assignments of [enhance_http_node]. *)
Definition enhanced_options (options : dict) (timeout : Z) (retry : json) : dict :=
  dict_set
    (dict_set
       (dict_set (dict_set options "timeout" (JInt timeout)) "retry" retry)
       "response" RESPONSE_OPTION)
    "redirect" REDIRECT_OPTION.

(** The node after the assignments of [enhance_http_node]. *)
Definition enhanced_node (node parameters options : dict) (timeout : Z)
  (retry headers : json) : json :=
  JObj
    (dict_set
       (dict_set node "parameters"
          (JObj
             (dict_set (dict_set parameters "headers" headers) "options"
                (JObj (enhanced_options options timeout retry)))))
       "onError" (JStr "continueRegularOutput")).

(** The node object when the call raises.  Before its last four
    assignments the call writes to [options] only.  Those writes reach
    the node when [options] is the dict the node holds under
    [parameters.options]; once [options['timeout'] = timeout] is done the
    other three are done as well (the retry policy is computed from the
    name and URL the timeout was computed from), and the exception comes
    from the headers. *)
Definition node_when_raised (node : json) : json :=
  match node with
  | JObj d =>
      match dict_get d "parameters" with
      | Some (JObj p) =>
          match dict_get p "options" with
          | Some (JObj o) =>
              let node_name := get_or d "name" (JStr "HTTP Request") in
              let url := get_or p "url" (JStr "") in
              match get_timeout_config node_name url,
                    get_retry_config node_name url with
              | Ok timeout, Ok retry =>
                  JObj (dict_set d "parameters"
                          (JObj (dict_set p "options"
                                   (JObj (enhanced_options o timeout retry)))))
              | _, _ => node
              end
          | _ => node
          end
      | _ => node
      end
  | _ => node
  end.

(** The node object after the call, whether it returned or raised. *)
Definition node_after_call (node : json) : json :=
  match enhance_http_node node with
  | Ok (node', _) => node'
  | Raise _ => node_when_raised node
  end.

(** The entries of a node that [enhance_http_node] reads have the types
    it expects: the name, when present, is a string; the parameters
    entry, when present, is a mapping whose URL is a string or a false
    value, whose options entry is a mapping, and whose headers entry is a
    mapping or a false value. *)
Definition absent_or (p : json -> bool) (o : option json) : bool :=
  match o with
  | None => true
  | Some v => p v
  end.

Definition is_str (v : json) : bool :=
  match v with JStr _ => true | _ => false end.

Definition is_dict (v : json) : bool :=
  match v with JObj _ => true | _ => false end.

Definition falsy_or (p : json -> bool) (v : json) : bool :=
  (negb (truthy v) || p v)%bool.

Definition well_typed_parameters (parameters : json) : bool :=
  match parameters with
  | JObj p =>
      (absent_or (falsy_or is_str) (dict_get p "url")
       && absent_or is_dict (dict_get p "options")
       && absent_or (falsy_or is_dict) (dict_get p "headers"))%bool
  | _ => false
  end.

Definition well_typed_node (node : dict) : bool :=
  (absent_or is_str (dict_get node "name")
   && absent_or well_typed_parameters (dict_get node "parameters"))%bool.

(** A node of a document is an HTTP Request node. *)
Definition node_is_http (node : json) : bool :=
  match node with
  | JObj d => is_http_request d
  | _ => false
  end.

(** The document holds at least one HTTP Request node. *)
Definition contains_http_request (workflow : json) : bool :=
  match workflow with
  | JObj d =>
      match dict_get d "nodes" with
      | Some (JArr nodes) => existsb node_is_http nodes
      | _ => false
      end
  | _ => false
  end.

(** The nodes [add_error_handling_nodes] returns, given the HTTP Request
    nodes it found. *)
Definition error_nodes_for (http_nodes : list json) : list json :=
  match http_nodes with
  | [] => []
  | _ => [error_handler_node; fallback_node]
  end.

(** The entries [enhance_http_node] assigns to in the options and in the
    parameters of a node. *)
Definition is_enhanced_option (k : string) : bool :=
  existsb (String.eqb k) ["timeout"; "retry"; "response"; "redirect"].

Definition is_enhanced_parameter (k : string) : bool :=
  existsb (String.eqb k) ["headers"; "options"].

(** A list holds each of the four default header names as an element. *)
Definition holds_default_names (items : list json) : bool :=
  forallb (fun k => existsb (fun x => negb (py_ne_str x k)) items)
    (map fst DEFAULT_HEADERS).

(** The name and the URL [enhance_http_node] reads from a node. *)
Definition name_of (node : json) : json :=
  match node with
  | JObj d => get_or d "name" (JStr "HTTP Request")
  | _ => JNull
  end.

Definition url_of (node : json) : json :=
  match node with
  | JObj d =>
      match get_or d "parameters" (JObj []) with
      | JObj p => get_or p "url" (JStr "")
      | _ => JNull
      end
  | _ => JNull
  end.

(** A node record that is no HTTP Request node, or one whose entries
    have the types [enhance_http_node] expects. *)
Definition processable_node (node : json) : bool :=
  match node with
  | JObj d => (negb (is_http_request d) || well_typed_node d)%bool
  | _ => false
  end.

(** A node record that is no HTTP Request node. *)
Definition other_node (node : json) : bool :=
  match node with
  | JObj d => negb (is_http_request d)
  | _ => false
  end.

(** The rationale the report gives for a timeout, by the rule that
    selected the timeout. *)
Definition reason_rules : list (rule string) :=
  [ {| applies := name_has AI_ML_KEYWORDS;
       outcome := "Extended timeout for AI/ML operations" |};
    {| applies := name_has EMAIL_KEYWORDS;
       outcome := "Standard timeout for webhook/dashboard operations" |};
    {| applies := name_has WEBHOOK_KEYWORDS;
       outcome := "Standard timeout for webhook/dashboard operations" |};
    {| applies := url_has SOCIAL_KEYWORDS;
       outcome := "Medium timeout for social media APIs" |};
    {| applies := either_has "slack";
       outcome := "Quick timeout for simple operations" |};
    {| applies := url_has ECOMMERCE_KEYWORDS;
       outcome := "Long timeout for e-commerce API operations" |} ].

Definition DEFAULT_REASON : string :=
  "Standard timeout for webhook/dashboard operations".

(** ** Report generator: the counts *)

(** [imp.get('http_nodes_enhanced', 0)] and [imp.get('error_nodes_added', 0)]
    on what [enhance_workflow] returns: the error record has neither
    key. *)
Definition get_http_nodes_enhanced (imp : summary) : Z :=
  match imp with
  | Improved i => http_nodes_enhanced i
  | Failed _ _ => 0
  end.

Definition get_error_nodes_added (imp : summary) : Z :=
  match imp with
  | Improved i => error_nodes_added i
  | Failed _ _ => 0
  end.

(** [sum(...)] *)
Definition py_sum (l : list Z) : Z := fold_left Z.add l 0.

(** The first three assignments of [generate_summary_report]. *)
Definition total_files (improvements : list summary) : Z :=
  Z.of_nat (List.length improvements).

Definition total_http_nodes (improvements : list summary) : Z :=
  py_sum (map get_http_nodes_enhanced improvements).

Definition total_error_nodes (improvements : list summary) : Z :=
  py_sum (map get_error_nodes_added improvements).

(** [[i for i in improvements if 'error' not in i]], whose length the
    success rate divides by [total_files]. *)
Definition without_error (improvements : list summary) : list summary :=
  filter (fun i => match i with Improved _ => true | Failed _ _ => false end)
    improvements.

(** ** Runs in a row *)

(** [n] runs of the work on a document, each on the document the run
    before it wrote. *)
Fixpoint enhance_document_times (n : nat) (file_name : string) (workflow : json)
  : result json :=
  match n with
  | O => Ok workflow
  | S n' =>
      '(workflow', _) <- enhance_document file_name workflow ;;
      enhance_document_times n' file_name workflow'
  end.

(** * Properties *)

(** ** Dictionaries *)

Section DictFacts.
Context {V : Type}.
Implicit Types (d : list (string * V)) (k : string) (v : V).

Lemma dict_get_set_same d k v : dict_get (dict_set d k v) k = Some v.
Proof.
  induction d as [|[k' v'] d IH]; cbn.
  - now rewrite String.eqb_refl.
  - destruct (String.eqb k k') eqn:E; cbn; rewrite E; auto.
Qed.

Lemma dict_get_set_other d k k' v :
  k' <> k -> dict_get (dict_set d k v) k' = dict_get d k'.
Proof.
  intros Hne. induction d as [|[k0 v0] d IH]; cbn.
  - apply String.eqb_neq in Hne. now rewrite Hne.
  - destruct (String.eqb k k0) eqn:E; cbn.
    + apply String.eqb_eq in E. subst k0.
      apply String.eqb_neq in Hne. now rewrite Hne.
    + now rewrite IH.
Qed.

Lemma dict_set_id d k v : dict_get d k = Some v -> dict_set d k v = d.
Proof.
  induction d as [|[k' v'] d IH]; cbn; [discriminate|].
  destruct (String.eqb k k') eqn:E.
  - now intros [= ->].
  - intros H. now rewrite IH.
Qed.

Lemma dict_set_absent d k v :
  dict_get d k = None -> dict_set d k v = (d ++ [(k, v)])%list.
Proof.
  induction d as [|[k' v'] d IH]; cbn; [reflexivity|].
  destruct (String.eqb k k'); [discriminate|].
  intros H. now rewrite IH.
Qed.

Lemma dict_get_app d1 d2 k :
  dict_get (d1 ++ d2)%list k
  = match dict_get d1 k with Some v => Some v | None => dict_get d2 k end.
Proof.
  induction d1 as [|[k' v'] d1 IH]; cbn; [reflexivity|].
  now destruct (String.eqb k k').
Qed.

Lemma dict_mem_app d1 d2 k :
  dict_mem (d1 ++ d2)%list k = (dict_mem d1 k || dict_mem d2 k)%bool.
Proof.
  unfold dict_mem. rewrite dict_get_app. now destruct (dict_get d1 k).
Qed.

Lemma dict_mem_set d k k' v :
  dict_mem (dict_set d k v) k' = (String.eqb k' k || dict_mem d k')%bool.
Proof.
  unfold dict_mem. destruct (String.eqb k' k) eqn:E.
  - apply String.eqb_eq in E. subst. now rewrite dict_get_set_same.
  - apply String.eqb_neq in E. now rewrite dict_get_set_other.
Qed.

(** Assigning to [k] leaves the bindings of the other keys where they
    are, in their order. *)
Lemma filter_dict_set (keep : string -> bool) d k v :
  keep k = false ->
  filter (fun kv => keep (fst kv)) (dict_set d k v)
  = filter (fun kv => keep (fst kv)) d.
Proof.
  intros Hk. induction d as [|[k' v'] d IH]; cbn.
  - now rewrite Hk.
  - destruct (String.eqb k k') eqn:E; cbn.
    + apply String.eqb_eq in E. subst k'. now rewrite Hk.
    + now rewrite IH.
Qed.
End DictFacts.

(** ** Classification rules *)

Lemma lower_if_truthy_str (url : string) :
  lower_if_truthy (JStr url) = Ok (lower url).
Proof.
  unfold lower_if_truthy. cbn [truthy py_lower].
  destruct url; [|reflexivity]. cbn. now rewrite lower_ascii_text.
Qed.

Lemma get_timeout_config_lowered (name : string) (url : json) :
  get_timeout_config (JStr name) url
  = bind (lower_if_truthy url)
      (fun url_lower =>
         Ok (first_match timeout_rules DEFAULT_TIMEOUT (lower name) url_lower)).
Proof.
  unfold get_timeout_config. cbn [py_lower bind].
  destruct (lower_if_truthy url) as [url_lower|e]; cbn [bind]; [|reflexivity].
  unfold first_match, timeout_rules, DEFAULT_TIMEOUT.
  cbn [applies outcome]. unfold name_has, url_has, either_has.
  unfold AI_ML_KEYWORDS, EMAIL_KEYWORDS, WEBHOOK_KEYWORDS, SOCIAL_KEYWORDS,
    ECOMMERCE_KEYWORDS.
  repeat match goal with
         | |- context [if ?c then _ else _] => destruct c
         end; reflexivity.
Qed.

Lemma get_retry_config_lowered (name : string) (url : json) :
  get_retry_config (JStr name) url
  = bind (lower_if_truthy url)
      (fun url_lower =>
         Ok (first_match retry_rules DEFAULT_RETRY (lower name) url_lower)).
Proof.
  unfold get_retry_config. cbn [py_lower bind].
  destruct (lower_if_truthy url) as [url_lower|e]; cbn [bind]; [|reflexivity].
  unfold first_match, retry_rules, DEFAULT_RETRY.
  cbn [applies outcome]. unfold name_has.
  unfold CRITICAL_KEYWORDS, AI_KEYWORDS, NOTIFICATION_KEYWORDS.
  repeat match goal with
         | |- context [if ?c then _ else _] => destruct c
         end; reflexivity.
Qed.

(** The classifiers on ASCII names and URLs. *)
Lemma get_timeout_config_ascii (name url : string) :
  is_ascii name = true -> is_ascii url = true ->
  get_timeout_config (JStr name) (JStr url)
  = Ok (first_match timeout_rules DEFAULT_TIMEOUT
          (ascii_lower name) (ascii_lower url)).
Proof.
  intros Hn Hu. rewrite get_timeout_config_lowered, lower_if_truthy_str.
  cbn [bind]. now rewrite !lower_ascii_text by assumption.
Qed.

Lemma get_retry_config_ascii (name url : string) :
  is_ascii name = true -> is_ascii url = true ->
  get_retry_config (JStr name) (JStr url)
  = Ok (first_match retry_rules DEFAULT_RETRY
          (ascii_lower name) (ascii_lower url)).
Proof.
  intros Hn Hu. rewrite get_retry_config_lowered, lower_if_truthy_str.
  cbn [bind]. now rewrite !lower_ascii_text by assumption.
Qed.

(** C1.  On a string name and a string URL, [get_timeout_config] returns
    the outcome of the first rule of [timeout_rules] that applies to the
    lower-cased name and URL, and 15000 when none does: AI/ML name
    keywords 30000, e-mail name keywords 15000, webhook name keywords
    15000, social-media URL keywords 20000, slack in name or URL 10000,
    e-commerce URL keywords 25000; a URL that is absent or a false value
    counts as the empty string.  The lower-casing is [str.lower], whatever
    it does outside ASCII.  The node named "Fetch OpenAI Completion" with
    URL "https://api.openai.com/v1/..." selects 30000, and the enhanced
    node carries that timeout; the other instances go through the later
    rules, the earlier of two rules that apply, and the default. *)
Theorem timeout_is_first_matching_rule :
  (forall name url : string,
      get_timeout_config (JStr name) (JStr url)
      = Ok (first_match timeout_rules DEFAULT_TIMEOUT (lower name) (lower url)))
  /\ (forall (name : string) (url : json),
         truthy url = false ->
         get_timeout_config (JStr name) url
         = Ok (first_match timeout_rules DEFAULT_TIMEOUT (lower name) ""))
  /\ map (fun r => outcome r) timeout_rules
     = [30000; 15000; 15000; 20000; 10000; 25000]
  /\ get_timeout_config (JStr "Fetch OpenAI Completion")
       (JStr "https://api.openai.com/v1/...") = Ok 30000
  /\ (exists node parameters options,
         enhance_http_node
           (JObj [("name", JStr "Fetch OpenAI Completion");
                  ("type", JStr HTTP_REQUEST);
                  ("parameters",
                   JObj [("url", JStr "https://api.openai.com/v1/...")])])
         = Ok (JObj node, true)
         /\ dict_get node "parameters" = Some (JObj parameters)
         /\ dict_get parameters "options" = Some (JObj options)
         /\ dict_get options "timeout" = Some (JInt 30000))
  /\ (get_timeout_config (JStr "SendGrid dispatch")
        (JStr "https://api.twitter.com/2/tweets") = Ok 15000
      /\ get_timeout_config (JStr "Webhook relay")
           (JStr "https://hooks.slack.com/services/T0") = Ok 15000
      /\ get_timeout_config (JStr "Post update")
           (JStr "https://api.twitter.com/2/tweets") = Ok 20000
      /\ get_timeout_config (JStr "Post update")
           (JStr "https://slack.com/api/twitter-feed") = Ok 20000
      /\ get_timeout_config (JStr "Notify Team")
           (JStr "https://hooks.slack.com/services/T0") = Ok 10000
      /\ get_timeout_config (JStr "Slack order note")
           (JStr "https://shop.myshopify.com/orders") = Ok 10000
      /\ get_timeout_config (JStr "Load orders")
           (JStr "https://shop.myshopify.com/orders") = Ok 25000
      /\ get_timeout_config (JStr "Load rows")
           (JStr "https://example.com/rows") = Ok 15000
      /\ get_timeout_config (JStr "Slack AI digest")
           (JStr "https://shop.myshopify.com/orders") = Ok 30000).
Proof.
  split; [|split; [|split; [reflexivity|split; [|split]]]].
  - intros name url. cbn [py_lower]. now rewrite get_timeout_config_lowered,
      lower_if_truthy_str.
  - intros name url Hu. rewrite get_timeout_config_lowered.
    unfold lower_if_truthy. now rewrite Hu.
  - now rewrite get_timeout_config_ascii.
  - eexists _, _, _. split.
    + unfold enhance_http_node. cbn.
      rewrite !lower_ascii_text by reflexivity. reflexivity.
    + repeat split; reflexivity.
  - repeat split; now rewrite get_timeout_config_ascii.
Qed.

(** C2.  On a string name, [get_retry_config] returns the outcome of the
    first rule of [retry_rules] that applies to the lower-cased name, and
    the default policy when none does: critical/important/sync give
    3 attempts 2000 ms apart, AI keywords 2 attempts 3000 ms apart,
    notification/alert/email 3 attempts 1000 ms apart, otherwise
    3 attempts 1500 ms apart.  The URL plays no part, and the
    lower-casing is [str.lower], whatever it does outside ASCII.  The
    name "critical-openai-sync" matches both the critical and the AI rule
    and selects the critical branch; the other instances go through the
    later rules and the default. *)
Theorem retry_is_first_matching_rule :
  (forall name url : string,
      get_retry_config (JStr name) (JStr url)
      = Ok (first_match retry_rules DEFAULT_RETRY (lower name) (lower url)))
  /\ (forall (name : string) (url : json),
         truthy url = false ->
         get_retry_config (JStr name) url
         = Ok (first_match retry_rules DEFAULT_RETRY (lower name) ""))
  /\ map (fun r => outcome r) retry_rules
     = [retry_policy 3 2000; retry_policy 2 3000; retry_policy 3 1000]
  /\ DEFAULT_RETRY
     = JObj [("enabled", JBool true); ("maxAttempts", JInt 3);
             ("waitBetween", JInt 1500)]
  /\ any_in CRITICAL_KEYWORDS (lower "critical-openai-sync") = true
  /\ any_in AI_KEYWORDS (lower "critical-openai-sync") = true
  /\ (forall url : string,
         get_retry_config (JStr "critical-openai-sync") (JStr url)
         = Ok (JObj [("enabled", JBool true); ("maxAttempts", JInt 3);
                     ("waitBetween", JInt 2000)]))
  /\ (get_retry_config (JStr "GPT alert digest") (JStr "")
      = Ok (JObj [("enabled", JBool true); ("maxAttempts", JInt 2);
                  ("waitBetween", JInt 3000)])
      /\ get_retry_config (JStr "Send Alert") (JStr "")
         = Ok (JObj [("enabled", JBool true); ("maxAttempts", JInt 3);
                     ("waitBetween", JInt 1000)])
      /\ get_retry_config (JStr "Important notification") (JStr "")
         = Ok (JObj [("enabled", JBool true); ("maxAttempts", JInt 3);
                     ("waitBetween", JInt 2000)])
      /\ get_retry_config (JStr "Load rows") (JStr "")
         = Ok (JObj [("enabled", JBool true); ("maxAttempts", JInt 3);
                     ("waitBetween", JInt 1500)])).
Proof.
  split; [|split; [|split; [reflexivity|split; [reflexivity|]]]].
  - intros name url. now rewrite get_retry_config_lowered, lower_if_truthy_str.
  - intros name url Hu. rewrite get_retry_config_lowered.
    unfold lower_if_truthy. now rewrite Hu.
  - split; [now rewrite lower_ascii_text|].
    split; [now rewrite lower_ascii_text|]. split.
    + intros url. rewrite get_retry_config_lowered, lower_if_truthy_str.
      cbn [bind]. now rewrite (lower_ascii_text "critical-openai-sync").
    + repeat split; now rewrite get_retry_config_ascii.
Qed.

(** C3 (amended).  A string name whose lower-cased form (by [str.lower],
    whatever it does outside ASCII) holds "notification", "alert" or
    "email", none of the critical keywords and none of the AI keywords
    selects 3 attempts 1000 ms apart. *)
Theorem notification_retry_after_earlier_rules (name url : string) :
  any_in NOTIFICATION_KEYWORDS (lower name) = true ->
  any_in CRITICAL_KEYWORDS (lower name) = false ->
  any_in AI_KEYWORDS (lower name) = false ->
  get_retry_config (JStr name) (JStr url)
  = Ok (JObj [("enabled", JBool true); ("maxAttempts", JInt 3);
              ("waitBetween", JInt 1000)]).
Proof.
  intros Hn Hc Ha. unfold get_retry_config.
  cbn [py_lower bind]. rewrite lower_if_truthy_str. cbn [bind].
  unfold NOTIFICATION_KEYWORDS, CRITICAL_KEYWORDS, AI_KEYWORDS in *.
  rewrite Hc, Ha, Hn. reflexivity.
Qed.

(** ** Header normalizer *)

Lemma set_default_dict (d : dict) (key value : string) :
  set_default (JObj d) key value
  = Ok (JObj (if dict_mem d key then d else d ++ [(key, JStr value)])%list).
Proof.
  unfold set_default. cbn [py_in bind]. unfold dict_mem.
  destruct (dict_get d key) eqn:E; [reflexivity|].
  cbn [py_setitem]. now rewrite dict_set_absent.
Qed.

Lemma get_enhanced_headers_dict (existing : dict) (url : json) :
  get_enhanced_headers (JObj existing) url = Ok (JObj (merged_headers existing)).
Proof.
  unfold get_enhanced_headers.
  assert (Hcopy : (if truthy (JObj existing) then py_copy (JObj existing)
                   else Ok (JObj [])) = Ok (JObj existing))
    by (destruct existing; reflexivity).
  rewrite Hcopy. cbn [bind]. unfold merged_headers, DEFAULT_HEADERS.
  cbn [filter fst].
  destruct (dict_mem existing "User-Agent") eqn:E1;
    destruct (dict_mem existing "Content-Type") eqn:E2;
    destruct (dict_mem existing "Accept") eqn:E3;
    destruct (dict_mem existing "Connection") eqn:E4;
    repeat (rewrite set_default_dict; cbn [bind];
            rewrite ?dict_mem_app, ?E1, ?E2, ?E3, ?E4; cbn [orb dict_mem
              dict_get String.eqb Ascii.eqb Bool.eqb]);
    cbn [negb]; rewrite <- ?app_assoc, ?app_nil_r; reflexivity.
Qed.

Lemma dict_get_filter_kept {V : Type} (keep : string -> bool)
  (d : list (string * V)) (k : string) :
  keep k = true ->
  dict_get (filter (fun kv => keep (fst kv)) d) k = dict_get d k.
Proof.
  intros Hk. induction d as [|[k' v'] d IH]; cbn; [reflexivity|].
  destruct (String.eqb k k') eqn:E.
  - apply String.eqb_eq in E. subst k'. rewrite Hk. cbn.
    now rewrite String.eqb_refl.
  - destruct (keep k'); cbn; rewrite ?E; exact IH.
Qed.

Lemma dict_get_merged_headers (existing : dict) (k : string) :
  dict_get (merged_headers existing) k
  = match dict_get existing k with
    | Some v => Some v
    | None => dict_get DEFAULT_HEADERS k
    end.
Proof.
  unfold merged_headers. rewrite dict_get_app.
  destruct (dict_get existing k) eqn:E; [reflexivity|].
  apply (dict_get_filter_kept (fun key => negb (dict_mem existing key))).
  unfold dict_mem. now rewrite E.
Qed.

(** C5.  On an existing header mapping, [get_enhanced_headers] returns
    the existing bindings, in their order, followed by the defaults of
    the four keys User-Agent, Content-Type, Accept and Connection that
    the mapping lacks: a key already present keeps the caller's value,
    and only an absent key receives its default.  On
    [{"User-Agent": "custom"}] the result keeps "custom" and adds the
    Content-Type, Accept and Connection defaults. *)
Theorem header_merge_never_overwrites :
  (forall (existing : dict) (url : json),
      get_enhanced_headers (JObj existing) url
      = Ok (JObj (merged_headers existing)))
  /\ (forall (existing : dict) (k : string),
         dict_get (merged_headers existing) k
         = match dict_get existing k with
           | Some v => Some v
           | None => dict_get DEFAULT_HEADERS k
           end)
  /\ map fst DEFAULT_HEADERS
     = ["User-Agent"; "Content-Type"; "Accept"; "Connection"]
  /\ (forall url : json,
         get_enhanced_headers (JObj [("User-Agent", JStr "custom")]) url
         = Ok (JObj [("User-Agent", JStr "custom");
                     ("Content-Type", JStr "application/json");
                     ("Accept", JStr "application/json, text/plain, */*");
                     ("Connection", JStr "keep-alive")])).
Proof.
  split; [exact get_enhanced_headers_dict|].
  split; [exact dict_get_merged_headers|].
  split; [reflexivity|].
  intros url. now rewrite get_enhanced_headers_dict.
Qed.

(** ** Node enhancer *)

Lemma bind_ok {A B : Type} (c : result A) (k : A -> result B) (b : B) :
  bind c k = Ok b -> exists a, c = Ok a /\ k a = Ok b.
Proof. destruct c; cbn; [eauto | discriminate]. Qed.

Lemma py_get_ok (o : json) (k : string) (dflt v : json) :
  py_get o k dflt = Ok v -> exists d, o = JObj d /\ v = get_or d k dflt.
Proof. destruct o; cbn; try discriminate. intros [= <-]. eauto. Qed.

Lemma py_setitem_ok (o : json) (k : string) (v o' : json) :
  py_setitem o k v = Ok o' -> exists d, o = JObj d /\ o' = JObj (dict_set d k v).
Proof. destruct o; cbn; try discriminate. intros [= <-]. eauto. Qed.

(** Splits a successful [bind] in hypothesis [H]. *)
Ltac bind_inv H :=
  let a := fresh "a" in
  let E := fresh "E" in
  apply bind_ok in H; destruct H as (a & E & H).

(** The node enhancer on an HTTP Request node whose entries it can use. *)
Lemma enhance_http_node_http (node parameters options : dict) (timeout : Z)
  (retry headers : json) :
  is_http_request node = true ->
  get_or node "parameters" (JObj []) = JObj parameters ->
  get_or parameters "options" (JObj []) = JObj options ->
  get_timeout_config (get_or node "name" (JStr "HTTP Request"))
    (get_or parameters "url" (JStr "")) = Ok timeout ->
  get_retry_config (get_or node "name" (JStr "HTTP Request"))
    (get_or parameters "url" (JStr "")) = Ok retry ->
  get_enhanced_headers (get_or parameters "headers" (JObj []))
    (get_or parameters "url" (JStr "")) = Ok headers ->
  enhance_http_node (JObj node)
  = Ok (enhanced_node node parameters options timeout retry headers, true).
Proof.
  intros Hty Hp Ho Ht Hr Hh. unfold enhance_http_node.
  cbn [py_get bind]. unfold is_http_request in Hty.
  apply negb_true_iff in Hty. rewrite Hty, Hp. cbn [py_get bind].
  rewrite Ht, Ho. cbn [py_setitem bind]. rewrite Hr. cbn [bind].
  rewrite Hh. reflexivity.
Qed.

(** What a successful enhancement tells about the node it was given. *)
Lemma enhance_http_node_true (node node' : json) :
  enhance_http_node node = Ok (node', true) ->
  exists (d parameters options : dict) (timeout : Z) (retry headers : json),
    node = JObj d
    /\ is_http_request d = true
    /\ get_or d "parameters" (JObj []) = JObj parameters
    /\ get_or parameters "options" (JObj []) = JObj options
    /\ get_timeout_config (get_or d "name" (JStr "HTTP Request"))
         (get_or parameters "url" (JStr "")) = Ok timeout
    /\ get_retry_config (get_or d "name" (JStr "HTTP Request"))
         (get_or parameters "url" (JStr "")) = Ok retry
    /\ get_enhanced_headers (get_or parameters "headers" (JObj []))
         (get_or parameters "url" (JStr "")) = Ok headers
    /\ node' = enhanced_node d parameters options timeout retry headers.
Proof.
  intros H. unfold enhance_http_node in H.
  bind_inv H. apply py_get_ok in E. destruct E as (d & -> & ->).
  destruct (py_ne_str (get_or d "type" JNull) HTTP_REQUEST) eqn:Hty;
    [discriminate H|].
  bind_inv H. injection E as <-.
  bind_inv H. injection E as <-.
  bind_inv H. apply py_get_ok in E. destruct E as (p & Hp & ->).
  bind_inv H. rewrite Hp in E. injection E as <-.
  bind_inv H. rename a into timeout, E into Ht.
  bind_inv H. apply py_setitem_ok in E. destruct E as (o & Ho & ->).
  bind_inv H. rename a into retry, E into Hr.
  cbn [py_setitem bind] in H.
  bind_inv H. rewrite Hp in E. injection E as <-.
  bind_inv H. rename a into headers, E into Hh.
  rewrite Hp in H. cbn [py_setitem bind] in H. injection H as <-.
  exists d, p, o, timeout, retry, headers.
  unfold is_http_request. rewrite Hty. repeat split; assumption.
Qed.

Lemma enhance_http_node_false (node node' : json) :
  enhance_http_node node = Ok (node', false) ->
  exists d, node = JObj d /\ is_http_request d = false /\ node' = node.
Proof.
  intros H. unfold enhance_http_node in H.
  bind_inv H. apply py_get_ok in E. destruct E as (d & -> & ->).
  exists d. unfold is_http_request.
  destruct (py_ne_str (get_or d "type" JNull) HTTP_REQUEST) eqn:Hty.
  - injection H as <-. auto.
  - exfalso. repeat (bind_inv H). discriminate H.
Qed.

Lemma enhance_http_node_other (node : dict) :
  is_http_request node = false ->
  enhance_http_node (JObj node) = Ok (JObj node, false).
Proof.
  intros H. unfold enhance_http_node. cbn [py_get bind].
  unfold is_http_request in H. apply negb_false_iff in H. now rewrite H.
Qed.

(** C9.  A node record whose type tag is not the HTTP Request tag comes
    back as it was given, every entry in place, and the operation
    answers [False]. *)
Theorem non_http_node_is_left_unmodified (node : dict) :
  is_http_request node = false ->
  enhance_http_node (JObj node) = Ok (JObj node, false).
Proof. exact (enhance_http_node_other node). Qed.

Lemma enhance_http_node_frame (node : dict) (node' : json) (b : bool) :
  enhance_http_node (JObj node) = Ok (node', b) ->
  exists fields : dict,
    node' = JObj fields
    /\ filter (fun kv => negb (is_enhanced_field (fst kv))) fields
       = filter (fun kv => negb (is_enhanced_field (fst kv))) node.
Proof.
  intros H. destruct b.
  - apply enhance_http_node_true in H.
    destruct H as (d & p & o & t & r & h & Hd & _ & _ & _ & _ & _ & _ & ->).
    injection Hd as <-. unfold enhanced_node. eexists. split; [reflexivity|].
    rewrite (filter_dict_set (fun k => negb (is_enhanced_field k)))
      by reflexivity.
    now rewrite (filter_dict_set (fun k => negb (is_enhanced_field k)))
      by reflexivity.
  - apply enhance_http_node_false in H. destruct H as (d & _ & _ & ->).
    exists node. auto.
Qed.

Lemma node_when_raised_frame (node : dict) :
  exists fields : dict,
    node_when_raised (JObj node) = JObj fields
    /\ filter (fun kv => negb (is_enhanced_field (fst kv))) fields
       = filter (fun kv => negb (is_enhanced_field (fst kv))) node.
Proof.
  unfold node_when_raised.
  destruct (dict_get node "parameters") as [[| | | | | |p]|]; eauto.
  destruct (dict_get p "options") as [[| | | | | |o]|]; eauto.
  cbv zeta.
  destruct (get_timeout_config _ _); eauto.
  destruct (get_retry_config _ _); eauto.
  eexists. split; [reflexivity|].
  now rewrite (filter_dict_set (fun k => negb (is_enhanced_field k)))
    by reflexivity.
Qed.

Lemma dict_get_unfiltered {V : Type} (keep : string -> bool)
  (d d' : list (string * V)) (k : string) :
  filter (fun kv => keep (fst kv)) d' = filter (fun kv => keep (fst kv)) d ->
  keep k = true ->
  dict_get d' k = dict_get d k.
Proof.
  intros Hf Hk.
  rewrite <- (dict_get_filter_kept keep d' k Hk).
  rewrite <- (dict_get_filter_kept keep d k Hk).
  now rewrite Hf.
Qed.

(** C10.  After a call of the enhancement on a node record, whether it
    returned or raised, the entries of the node other than [parameters]
    and [onError] (id, name, type, typeVersion, position, credentials,
    ...) are the entries it had, with their values and in their order. *)
Theorem enhancement_keeps_other_fields (node : dict) :
  exists fields : dict,
    node_after_call (JObj node) = JObj fields
    /\ filter (fun kv => negb (is_enhanced_field (fst kv))) fields
       = filter (fun kv => negb (is_enhanced_field (fst kv))) node
    /\ (forall k : string,
           is_enhanced_field k = false -> dict_get fields k = dict_get node k)
    /\ (forall (node' : json) (b : bool),
           enhance_http_node (JObj node) = Ok (node', b) -> node' = JObj fields).
Proof.
  assert (H : exists fields : dict,
             node_after_call (JObj node) = JObj fields
             /\ filter (fun kv => negb (is_enhanced_field (fst kv))) fields
                = filter (fun kv => negb (is_enhanced_field (fst kv))) node).
  { unfold node_after_call.
    destruct (enhance_http_node (JObj node)) as [[node' b]|e] eqn:E.
    - exact (enhance_http_node_frame _ _ _ E).
    - exact (node_when_raised_frame node). }
  destruct H as (fields & Hafter & Hfilter).
  exists fields. split; [exact Hafter|]. split; [exact Hfilter|]. split.
  - intros k Hk.
    apply (dict_get_unfiltered (fun key => negb (is_enhanced_field key)));
      [exact Hfilter | now rewrite Hk].
  - intros node' b E. unfold node_after_call in Hafter. now rewrite E in Hafter.
Qed.

(** *** What the enhanced node holds *)

Lemma get_retry_config_ok (node_name url retry : json) :
  get_retry_config node_name url = Ok retry ->
  exists attempts wait : Z,
    retry = retry_policy attempts wait /\ 1 <= attempts /\ 0 <= wait.
Proof.
  unfold get_retry_config. intros H. bind_inv H. bind_inv H.
  repeat match type of H with
         | (if ?c then _ else _) = _ => destruct c
         end;
    injection H as <-; eexists _, _; (split; [reflexivity | lia]).
Qed.

Lemma set_default_ok (headers headers' : json) (key value : string) :
  set_default headers key value = Ok headers' ->
  py_copy headers = Ok headers ->
  py_copy headers' = Ok headers'
  /\ py_in key headers' = Ok true
  /\ (forall k, py_in k headers = Ok true -> py_in k headers' = Ok true).
Proof.
  unfold set_default. intros H Hc. bind_inv H. destruct a.
  - injection H as <-. auto.
  - apply py_setitem_ok in H. destruct H as (d & -> & ->).
    split; [reflexivity|]. cbn [py_in]. split.
    + now rewrite dict_mem_set, String.eqb_refl.
    + intros k [= Hk]. now rewrite dict_mem_set, Hk, orb_true_r.
Qed.

Lemma get_enhanced_headers_ok (existing url headers : json) :
  get_enhanced_headers existing url = Ok headers ->
  py_copy headers = Ok headers
  /\ forall k, In k (map fst DEFAULT_HEADERS) -> py_in k headers = Ok true.
Proof.
  unfold get_enhanced_headers. intros H.
  bind_inv H. rename a into h0, E into E0.
  assert (Hc0 : py_copy h0 = Ok h0).
  { destruct (truthy existing).
    - destruct existing; cbn in E0; try discriminate E0;
        injection E0 as <-; reflexivity.
    - injection E0 as <-. reflexivity. }
  bind_inv H. apply set_default_ok in E; [|assumption].
  destruct E as (Hc1 & Hu1 & _).
  bind_inv H. apply set_default_ok in E; [|assumption].
  destruct E as (Hc2 & Hu2 & Hm2).
  bind_inv H. apply set_default_ok in E; [|assumption].
  destruct E as (Hc3 & Hu3 & Hm3).
  bind_inv H. apply set_default_ok in E; [|assumption].
  destruct E as (Hc4 & Hu4 & Hm4).
  injection H as <-. split; [assumption|].
  intros k [<-|[<-|[<-|[<-|[]]]]]; auto.
Qed.

(** C4 (amended).  When the enhancement of an HTTP Request node
    completes, the options of the node hold an integer timeout, a retry
    policy with at least one attempt, the response entry, which is the
    record [{response: {neverError: false}}] ([neverError] sits in its
    inner [response] record), and the redirect entry [followRedirects:
    true, maxRedirects: 3], the timeout and the policy being those the
    classification rules select for the name and URL of the node; the
    headers hold the four default keys, and
    when the node came with a header mapping they are that mapping
    followed by the defaults of the keys it lacked; [onError] is
    [continueRegularOutput]. *)
Theorem enhanced_node_invariant (node node' : json) :
  enhance_http_node node = Ok (node', true) ->
  exists (fields parameters options : dict) (headers : json)
         (timeout attempts wait : Z),
    node' = JObj fields
    /\ dict_get fields "parameters" = Some (JObj parameters)
    /\ dict_get parameters "options" = Some (JObj options)
    /\ dict_get options "timeout" = Some (JInt timeout)
    /\ (dict_get options "retry" = Some (retry_policy attempts wait)
        /\ 1 <= attempts /\ 0 <= wait)
    /\ dict_get options "response"
       = Some (JObj [("response", JObj [("neverError", JBool false)])])
    /\ dict_get options "redirect"
       = Some (JObj [("followRedirects", JBool true); ("maxRedirects", JInt 3)])
    /\ dict_get parameters "headers" = Some headers
    /\ (forall k : string,
           In k ["User-Agent"; "Content-Type"; "Accept"; "Connection"] ->
           py_in k headers = Ok true)
    /\ (forall d p : dict,
           node = JObj d ->
           get_or d "parameters" (JObj []) = JObj p ->
           get_timeout_config (get_or d "name" (JStr "HTTP Request"))
             (get_or p "url" (JStr "")) = Ok timeout
           /\ get_retry_config (get_or d "name" (JStr "HTTP Request"))
                (get_or p "url" (JStr "")) = Ok (retry_policy attempts wait))
    /\ (forall d p existing : dict,
           node = JObj d ->
           get_or d "parameters" (JObj []) = JObj p ->
           get_or p "headers" (JObj []) = JObj existing ->
           headers = JObj (merged_headers existing))
    /\ dict_get fields "onError" = Some (JStr "continueRegularOutput").
Proof.
  intros H. apply enhance_http_node_true in H.
  destruct H as (d & p & o & t & r & h & -> & _ & Hp & Ho & Ht & Hr & Hh & ->).
  destruct (get_retry_config_ok _ _ _ Hr) as (a & w & -> & Ha & Hw).
  destruct (get_enhanced_headers_ok _ _ _ Hh) as (_ & Hin).
  unfold enhanced_node, enhanced_options.
  eexists _, _, _, h, t, a, w. split; [reflexivity|].
  split.
  { rewrite dict_get_set_other by discriminate. apply dict_get_set_same. }
  split; [apply dict_get_set_same|].
  split.
  { rewrite !dict_get_set_other by discriminate. apply dict_get_set_same. }
  split.
  { split; [|split; assumption].
    rewrite !dict_get_set_other by discriminate. apply dict_get_set_same. }
  split.
  { rewrite !dict_get_set_other by discriminate. apply dict_get_set_same. }
  split; [apply dict_get_set_same|].
  split.
  { rewrite dict_get_set_other by discriminate. apply dict_get_set_same. }
  split; [exact Hin|].
  split.
  { intros d' p' [= <-] Hp'. rewrite Hp in Hp'. injection Hp' as <-.
    split; assumption. }
  split; [|apply dict_get_set_same].
  intros d' p' existing [= <-] Hp' He.
  rewrite Hp in Hp'. injection Hp' as <-.
  rewrite He, get_enhanced_headers_dict in Hh. now injection Hh as <-.
Qed.

(** *** When the enhancement raises *)

Lemma lower_if_truthy_total (url : json) :
  falsy_or is_str url = true -> exists s, lower_if_truthy url = Ok s.
Proof.
  unfold falsy_or, lower_if_truthy. destruct (truthy url); cbn [negb orb].
  - destruct url; try discriminate. cbn. eauto.
  - eauto.
Qed.

Lemma classification_total (name : string) (url : json) :
  falsy_or is_str url = true ->
  exists (timeout : Z) (retry : json),
    get_timeout_config (JStr name) url = Ok timeout
    /\ get_retry_config (JStr name) url = Ok retry.
Proof.
  intros H. destruct (lower_if_truthy_total url H) as (s & Hs).
  unfold get_timeout_config, get_retry_config.
  cbn [py_lower bind]. rewrite Hs. cbn [bind].
  repeat match goal with
         | |- context [if ?c then _ else _] => destruct c
         end; eauto.
Qed.

Lemma get_enhanced_headers_falsy (existing url : json) :
  truthy existing = false ->
  get_enhanced_headers existing url = Ok (JObj DEFAULT_HEADERS).
Proof. unfold get_enhanced_headers. now intros ->. Qed.

Lemma get_enhanced_headers_total (existing url : json) :
  falsy_or is_dict existing = true ->
  exists headers, get_enhanced_headers existing url = Ok (JObj headers).
Proof.
  unfold falsy_or. destruct (truthy existing) eqn:E; cbn [negb orb].
  - destruct existing; try discriminate. intros _.
    rewrite get_enhanced_headers_dict. eauto.
  - intros _. rewrite get_enhanced_headers_falsy by assumption. eauto.
Qed.

Lemma absent_or_get_or (p : json -> bool) (d : dict) (k : string) (dflt : json) :
  absent_or p (dict_get d k) = true -> p dflt = true -> p (get_or d k dflt) = true.
Proof. unfold absent_or, get_or. now destruct (dict_get d k). Qed.

(** C6 (amended).  The enhancement completes without raising on every
    node record that is not an HTTP Request node, and on every HTTP
    Request node whose name, when present, is a string and whose
    parameters, when present, are a mapping with a URL that is a string
    or a false value, options that are a mapping and headers that are a
    mapping or a false value; it answers whether the node is an HTTP
    Request node.  Headers that are a false value are treated as the
    empty mapping. *)
Theorem well_typed_node_is_enhanced (node : dict) :
  is_http_request node = false \/ well_typed_node node = true ->
  (exists node' : json,
      enhance_http_node (JObj node) = Ok (node', is_http_request node))
  /\ (forall existing url : json,
         truthy existing = false ->
         get_enhanced_headers existing url
         = get_enhanced_headers (JObj []) url).
Proof.
  intros H. split.
  2:{ intros existing url He.
      now rewrite get_enhanced_headers_falsy, get_enhanced_headers_falsy. }
  destruct (is_http_request node) eqn:Hty.
  2:{ exists (JObj node). now apply enhance_http_node_other. }
  destruct H as [H|H]; [discriminate H|].
  unfold well_typed_node in H. apply andb_true_iff in H. destruct H as [Hn Hp].
  apply absent_or_get_or with (dflt := JStr "HTTP Request") in Hn;
    [|reflexivity].
  apply absent_or_get_or with (dflt := JObj []) in Hp; [|reflexivity].
  destruct (get_or node "name" (JStr "HTTP Request")) as [| | | |name| |] eqn:En;
    try discriminate Hn.
  destruct (get_or node "parameters" (JObj [])) as [| | | | | |p] eqn:Ep;
    try discriminate Hp.
  cbn [well_typed_parameters] in Hp.
  apply andb_true_iff in Hp. destruct Hp as [Hp Hh].
  apply andb_true_iff in Hp. destruct Hp as [Hu Ho].
  apply absent_or_get_or with (dflt := JStr "") in Hu; [|reflexivity].
  apply absent_or_get_or with (dflt := JObj []) in Ho; [|reflexivity].
  apply absent_or_get_or with (dflt := JObj []) in Hh; [|reflexivity].
  destruct (get_or p "options" (JObj [])) as [| | | | | |o] eqn:Eo;
    try discriminate Ho.
  destruct (classification_total name _ Hu) as (t & r & Ht & Hr).
  destruct (get_enhanced_headers_total _ (get_or p "url" (JStr "")) Hh)
    as (h & Hh').
  eexists. apply enhance_http_node_http with (parameters := p) (options := o);
    try eassumption; rewrite En; eassumption.
Qed.

(** ** Workflow processor *)

Lemma record_improvement_file (node : json) (imp imp' : improvements) :
  record_improvement node imp = Ok imp' -> file imp' = file imp.
Proof.
  unfold record_improvement. intros H. repeat (bind_inv H).
  now injection H as <-.
Qed.

Lemma enhance_nodes_file (nodes nodes' : list json) (imp imp' : improvements) :
  enhance_nodes nodes imp = Ok (nodes', imp') -> file imp' = file imp.
Proof.
  revert nodes' imp imp'.
  induction nodes as [|node rest IH]; intros nodes' imp imp' H; cbn in H.
  - now injection H as <- <-.
  - bind_inv H. destruct a as [node1 enhanced].
    bind_inv H. rename a into imp1, E0 into Hrec.
    bind_inv H. destruct a as [rest1 imp2]. injection H as <- <-.
    apply IH in E0. rewrite E0.
    destruct enhanced.
    + now apply record_improvement_file in Hrec.
    + now injection Hrec as <-.
Qed.

Lemma enhance_document_file (file_name : string) (workflow workflow' : json)
  (imp : improvements) :
  enhance_document file_name workflow = Ok (workflow', imp) ->
  file imp = file_name.
Proof.
  unfold enhance_document. intros H.
  bind_inv H. bind_inv H. bind_inv H. destruct a1 as [items imp0].
  repeat (bind_inv H). injection H as <- <-.
  apply enhance_nodes_file in E1. exact E1.
Qed.

Lemma enhance_workflow_file (fs : filesystem) (workflow_path : string) :
  summary_file (snd (enhance_workflow fs workflow_path))
  = basename workflow_path.
Proof.
  unfold enhance_workflow.
  destruct (enhance_workflow_try fs workflow_path) as [[fs' imp]|e] eqn:E;
    [|reflexivity].
  cbn. unfold enhance_workflow_try in E.
  bind_inv E. bind_inv E. destruct a0 as [workflow' imp0].
  bind_inv E. injection E as <- <-.
  now apply enhance_document_file in E1.
Qed.

Lemma enhance_all_workflows_files (fs : filesystem) (workflow_files : list string) :
  map summary_file (snd (enhance_all_workflows fs workflow_files))
  = map basename workflow_files.
Proof.
  revert fs. induction workflow_files as [|f rest IH]; intros fs; cbn.
  - reflexivity.
  - pose proof (enhance_workflow_file fs f) as Hf.
    destruct (enhance_workflow fs f) as [fs1 s]. cbn in Hf.
    specialize (IH fs1).
    destruct (enhance_all_workflows fs1 rest) as [fs2 all]. cbn in *.
    now rewrite Hf, IH.
Qed.

(** The [try] block raises exactly when the load, the work on the
    document or the write raises. *)
Lemma enhance_workflow_try_raises (fs : filesystem) (workflow_path : string)
  (e : exn) :
  enhance_workflow_try fs workflow_path = Raise e
  <-> (load fs workflow_path = Raise e
       \/ exists workflow,
           load fs workflow_path = Ok workflow
           /\ (enhance_document (basename workflow_path) workflow = Raise e
               \/ exists workflow' imp,
                   enhance_document (basename workflow_path) workflow
                   = Ok (workflow', imp)
                   /\ save fs workflow_path workflow' = Raise e)).
Proof.
  unfold enhance_workflow_try. split.
  - intros H.
    destruct (load fs workflow_path) as [workflow|e0] eqn:El; cbn [bind] in H;
      [|left; now injection H as ->].
    right. exists workflow. split; [reflexivity|].
    destruct (enhance_document (basename workflow_path) workflow)
      as [[workflow' imp]|e1] eqn:Ed; cbn [bind] in H;
      [|left; now injection H as ->].
    right. exists workflow', imp. split; [reflexivity|].
    destruct (save fs workflow_path workflow') as [fs'|e2]; cbn [bind] in H;
      [discriminate H | now injection H as ->].
  - intros [H|(w & Hl & [H|(w' & i & Hd & Hs)])].
    + now rewrite H.
    + rewrite Hl. cbn [bind]. now rewrite H.
    + rewrite Hl. cbn [bind]. rewrite Hd. cbn [bind]. now rewrite Hs.
Qed.

(** C8.  When the [try] block of the processor raises, whether in the
    load, in the work on the loaded document or in the write, the
    processor returns the record of the file name and the message of the
    exception; the batch driver puts that record in its list and goes on
    with the remaining files, and its list holds one summary per file, in
    order.  When the exception comes before the file is opened for
    writing, every file is as it was. *)
Theorem failure_is_caught_by_processor (fs : filesystem)
  (workflow_file : string) (rest : list string) (e : exn) :
  (load fs workflow_file = Raise e
   \/ exists workflow,
       load fs workflow_file = Ok workflow
       /\ (enhance_document (basename workflow_file) workflow = Raise e
           \/ exists workflow' imp,
               enhance_document (basename workflow_file) workflow
               = Ok (workflow', imp)
               /\ save fs workflow_file workflow' = Raise e)) ->
  snd (enhance_workflow fs workflow_file)
  = Failed (basename workflow_file) (exn_str e)
  /\ snd (enhance_all_workflows fs (workflow_file :: rest))
     = Failed (basename workflow_file) (exn_str e)
       :: snd (enhance_all_workflows
                 (fst (enhance_workflow fs workflow_file)) rest)
  /\ (forall (fs' : filesystem) (workflow_files : list string),
         map summary_file (snd (enhance_all_workflows fs' workflow_files))
         = map basename workflow_files)
  /\ (load fs workflow_file = Raise e
      \/ (exists workflow,
             load fs workflow_file = Ok workflow
             /\ enhance_document (basename workflow_file) workflow = Raise e) ->
      fst (enhance_workflow fs workflow_file) = fs).
Proof.
  intros H. apply enhance_workflow_try_raises in H.
  assert (Hw : enhance_workflow fs workflow_file
               = (fs, Failed (basename workflow_file) (exn_str e)))
    by (unfold enhance_workflow; now rewrite H).
  split; [now rewrite Hw|]. split; [|split].
  - cbn [enhance_all_workflows]. rewrite Hw. cbn [fst].
    now destruct (enhance_all_workflows fs rest).
  - exact enhance_all_workflows_files.
  - intros _. now rewrite Hw.
Qed.

(** *** Running the enhancer again *)

Lemma get_or_set_same (d : dict) (k : string) (v dflt : json) :
  get_or (dict_set d k v) k dflt = v.
Proof. unfold get_or. now rewrite dict_get_set_same. Qed.

Lemma get_or_set_other (d : dict) (k k' : string) (v dflt : json) :
  k' <> k -> get_or (dict_set d k v) k' dflt = get_or d k' dflt.
Proof. intros H. unfold get_or. now rewrite dict_get_set_other. Qed.

Lemma py_in_truthy (k : string) (headers : json) :
  py_copy headers = Ok headers ->
  py_in k headers = Ok true ->
  truthy headers = true.
Proof.
  destruct headers as [| | | | |l|d]; cbn; try discriminate; intros _.
  - destruct l; [discriminate | reflexivity].
  - destruct d; [discriminate | reflexivity].
Qed.

Lemma set_default_present (headers : json) (key value : string) :
  py_in key headers = Ok true -> set_default headers key value = Ok headers.
Proof. unfold set_default. now intros ->. Qed.

(** Headers that hold the four default keys come back as they are. *)
Lemma get_enhanced_headers_again (headers url : json) :
  py_copy headers = Ok headers ->
  (forall k, In k (map fst DEFAULT_HEADERS) -> py_in k headers = Ok true) ->
  get_enhanced_headers headers url = Ok headers.
Proof.
  intros Hc Hin. unfold get_enhanced_headers.
  rewrite (py_in_truthy "User-Agent" headers Hc) by (apply Hin; cbn; auto).
  rewrite Hc. cbn [bind].
  repeat (rewrite set_default_present by (apply Hin; cbn; auto 6); cbn [bind]).
  reflexivity.
Qed.

Lemma enhanced_options_again (options : dict) (timeout : Z) (retry : json) :
  enhanced_options (enhanced_options options timeout retry) timeout retry
  = enhanced_options options timeout retry.
Proof.
  unfold enhanced_options at 1.
  set (o := enhanced_options options timeout retry).
  assert (H1 : dict_get o "timeout" = Some (JInt timeout)).
  { unfold o, enhanced_options.
    rewrite !dict_get_set_other by discriminate. apply dict_get_set_same. }
  assert (H2 : dict_get o "retry" = Some retry).
  { unfold o, enhanced_options.
    rewrite !dict_get_set_other by discriminate. apply dict_get_set_same. }
  assert (H3 : dict_get o "response" = Some RESPONSE_OPTION).
  { unfold o, enhanced_options.
    rewrite !dict_get_set_other by discriminate. apply dict_get_set_same. }
  assert (H4 : dict_get o "redirect" = Some REDIRECT_OPTION).
  { unfold o, enhanced_options. apply dict_get_set_same. }
  now rewrite (dict_set_id o _ _ H1), (dict_set_id o _ _ H2),
    (dict_set_id o _ _ H3), (dict_set_id o _ _ H4).
Qed.

(** Enhancing an enhanced node gives the same node: the second pass
    assigns the values that are already there. *)
Lemma enhance_http_node_again (node node' : json) (b : bool) :
  enhance_http_node node = Ok (node', b) ->
  enhance_http_node node' = Ok (node', b).
Proof.
  intros H. destruct b.
  2:{ apply enhance_http_node_false in H. destruct H as (d & -> & Hd & ->).
      now apply enhance_http_node_other. }
  apply enhance_http_node_true in H.
  destruct H as (d & p & o & t & r & h & -> & Hty & Hp & Ho & Ht & Hr & Hh & ->).
  destruct (get_enhanced_headers_ok _ _ _ Hh) as (Hc & Hin).
  unfold enhanced_node.
  set (o' := enhanced_options o t r).
  set (p' := dict_set (dict_set p "headers" h) "options" (JObj o')).
  set (d' := dict_set (dict_set d "parameters" (JObj p')) "onError"
               (JStr "continueRegularOutput")).
  assert (Hname : get_or d' "name" (JStr "HTTP Request")
                  = get_or d "name" (JStr "HTTP Request")).
  { unfold d'. now rewrite !get_or_set_other by discriminate. }
  assert (Hurl : get_or p' "url" (JStr "") = get_or p "url" (JStr "")).
  { unfold p'. now rewrite !get_or_set_other by discriminate. }
  assert (Hp' : get_or d' "parameters" (JObj []) = JObj p').
  { unfold d'. rewrite get_or_set_other by discriminate.
    apply get_or_set_same. }
  assert (Ho' : get_or p' "options" (JObj []) = JObj o').
  { unfold p'. apply get_or_set_same. }
  assert (Hh' : get_or p' "headers" (JObj []) = h).
  { unfold p'. rewrite get_or_set_other by discriminate.
    apply get_or_set_same. }
  rewrite (enhance_http_node_http d' p' o' t r h).
  - unfold enhanced_node. fold o'. unfold o' at 1.
    rewrite enhanced_options_again. fold o'.
    assert (E1 : dict_set (dict_set p' "headers" h) "options" (JObj o') = p').
    { rewrite (dict_set_id p' "headers" h).
      - apply dict_set_id. unfold p'. apply dict_get_set_same.
      - unfold p'. rewrite dict_get_set_other by discriminate.
        apply dict_get_set_same. }
    rewrite E1.
    rewrite (dict_set_id d' "parameters" (JObj p')).
    + rewrite (dict_set_id d' "onError"); [reflexivity|].
      unfold d'. apply dict_get_set_same.
    + unfold d'. rewrite dict_get_set_other by discriminate.
      apply dict_get_set_same.
  - unfold is_http_request, d'.
    rewrite !get_or_set_other by discriminate. exact Hty.
  - exact Hp'.
  - exact Ho'.
  - now rewrite Hname, Hurl.
  - now rewrite Hname, Hurl.
  - rewrite Hh', Hurl. now apply get_enhanced_headers_again.
Qed.

Lemma record_improvement_any (node : json) (imp imp' : improvements) :
  record_improvement node imp = Ok imp' ->
  forall imp2, exists imp2', record_improvement node imp2 = Ok imp2'.
Proof.
  unfold record_improvement. intros H imp2. repeat (bind_inv H).
  rewrite E0 in E2, E5. injection E2 as <-. injection E5 as <-.
  rewrite E3 in E6. injection E6 as <-.
  repeat match goal with
         | Hc : ?c = Ok _ |- context [bind ?c _] => rewrite Hc; cbn [bind]
         end.
  eauto.
Qed.

Lemma enhance_nodes_again (nodes nodes' : list json) (imp imp' : improvements) :
  enhance_nodes nodes imp = Ok (nodes', imp') ->
  forall imp2, exists imp2', enhance_nodes nodes' imp2 = Ok (nodes', imp2').
Proof.
  revert nodes' imp imp'.
  induction nodes as [|node rest IH]; intros nodes' imp imp' H imp2; cbn in H.
  - injection H as <- <-. cbn. eauto.
  - bind_inv H. destruct a as [node1 enhanced]. rename E into Hnode.
    bind_inv H. rename a into imp1, E into Hrec.
    bind_inv H. destruct a as [rest1 imp3]. rename E into Hrest.
    injection H as <- <-.
    apply enhance_http_node_again in Hnode.
    cbn [enhance_nodes]. rewrite Hnode. cbn [bind].
    assert (Hrec2 : exists imp4,
               (if enhanced then record_improvement node1 imp2 else Ok imp2)
               = Ok imp4).
    { destruct enhanced; [|eauto].
      exact (record_improvement_any _ _ _ Hrec imp2). }
    destruct Hrec2 as (imp4 & ->). cbn [bind].
    destruct (IH _ _ _ Hrest imp4) as (imp5 & ->). cbn [bind]. eauto.
Qed.

Lemma enhance_nodes_app (l1 l1' l2 l2' : list json) (imp imp1 imp2 : improvements) :
  enhance_nodes l1 imp = Ok (l1', imp1) ->
  enhance_nodes l2 imp1 = Ok (l2', imp2) ->
  enhance_nodes (l1 ++ l2) imp = Ok (l1' ++ l2', imp2)%list.
Proof.
  revert l1' imp imp1.
  induction l1 as [|node rest IH]; intros l1' imp imp1 H1 H2; cbn in H1.
  - now injection H1 as <- <-.
  - bind_inv H1. destruct a as [node1 enhanced].
    bind_inv H1. bind_inv H1. destruct a0 as [rest1 imp4].
    injection H1 as <- <-.
    cbn [app enhance_nodes]. rewrite E. cbn [bind]. rewrite E0. cbn [bind].
    rewrite (IH _ _ _ E1 H2). reflexivity.
Qed.

Lemma enhance_nodes_error_nodes (imp : improvements) :
  enhance_nodes [error_handler_node; fallback_node] imp
  = Ok ([error_handler_node; fallback_node], imp).
Proof. reflexivity. Qed.

Lemma http_nodes_of_filter (nodes http_nodes : list json) :
  http_nodes_of nodes = Ok http_nodes ->
  http_nodes = filter node_is_http nodes.
Proof.
  revert http_nodes.
  induction nodes as [|node rest IH]; intros http_nodes H; cbn in H.
  - now injection H as <-.
  - bind_inv H. apply py_get_ok in E. destruct E as (d & -> & ->).
    bind_inv H. injection H as <-. rewrite (IH _ E).
    cbn [filter node_is_http]. unfold is_http_request.
    now destruct (py_ne_str (get_or d "type" JNull) HTTP_REQUEST).
Qed.

Lemma http_nodes_of_app (l1 l2 h1 h2 : list json) :
  http_nodes_of l1 = Ok h1 -> http_nodes_of l2 = Ok h2 ->
  http_nodes_of (l1 ++ l2) = Ok (h1 ++ h2)%list.
Proof.
  revert h1.
  induction l1 as [|node rest IH]; intros h1 H1 H2; cbn in H1.
  - now injection H1 as <-.
  - bind_inv H1. bind_inv H1. injection H1 as <-.
    cbn [app http_nodes_of]. rewrite E. cbn [bind].
    rewrite (IH _ E0 H2). cbn [bind].
    now destruct (py_ne_str a HTTP_REQUEST).
Qed.

Lemma filter_nonempty {A : Type} (p : A -> bool) (l : list A) :
  existsb p l = true -> filter p l <> [].
Proof.
  induction l as [|x l IH]; cbn; [discriminate|].
  destruct (p x); [discriminate | exact IH].
Qed.

Lemma dict_set_set {V : Type} (d : list (string * V)) (k : string) (v v' : V) :
  dict_set (dict_set d k v) k v' = dict_set d k v'.
Proof.
  induction d as [|[k0 v0] d IH]; cbn.
  - now rewrite String.eqb_refl.
  - destruct (String.eqb k k0) eqn:E; cbn; rewrite E; [reflexivity|].
    now rewrite IH.
Qed.

(** The work on a document whose [nodes] entry is a list. *)
Lemma enhance_document_run (file_name : string) (d : dict)
  (items items1 http_nodes : list json) (imp : improvements) :
  dict_get d "nodes" = Some (JArr items) ->
  enhance_nodes items (new_improvements file_name) = Ok (items1, imp) ->
  http_nodes_of items1 = Ok http_nodes ->
  enhance_document file_name (JObj d)
  = Ok (JObj (dict_set d "nodes" (JArr (items1 ++ error_nodes_for http_nodes))),
        with_error_nodes_added imp
          (Z.of_nat (List.length (error_nodes_for http_nodes)))).
Proof.
  intros Hd Hn Hh. unfold enhance_document. cbn [py_get bind].
  unfold get_or at 1. rewrite Hd. cbn [py_iter bind]. rewrite Hn. cbn [bind].
  unfold get_or, store_nodes, dict_mem. rewrite Hd.
  unfold add_error_handling_nodes. cbn [py_get bind].
  rewrite get_or_set_same. cbn [py_iter bind]. rewrite Hh. cbn [bind].
  assert (Hen : match http_nodes with
                | [] => Ok []
                | _ :: _ => Ok [error_handler_node; fallback_node]
                end = Ok (error_nodes_for http_nodes))
    by now destruct http_nodes.
  rewrite Hen. cbn [bind py_getitem]. rewrite dict_get_set_same.
  cbn [bind py_extend py_setitem]. now rewrite dict_set_set.
Qed.

(** What a completed run tells about the document it was given. *)
Lemma enhance_document_ok (file_name : string) (workflow workflow' : json)
  (imp' : improvements) :
  enhance_document file_name workflow = Ok (workflow', imp') ->
  exists (d : dict) (items items1 http_nodes : list json) (imp : improvements),
    workflow = JObj d
    /\ dict_get d "nodes" = Some (JArr items)
    /\ enhance_nodes items (new_improvements file_name) = Ok (items1, imp)
    /\ http_nodes_of items1 = Ok http_nodes
    /\ workflow'
       = JObj (dict_set d "nodes" (JArr (items1 ++ error_nodes_for http_nodes)))
    /\ imp' = with_error_nodes_added imp
                (Z.of_nat (List.length (error_nodes_for http_nodes))).
Proof.
  intros H. pose proof H as H0. unfold enhance_document in H.
  bind_inv H. apply py_get_ok in E. destruct E as (d & -> & ->).
  bind_inv H. rename a into items, E into Hiter.
  bind_inv H. destruct a as [items1 imp]. rename E into Hn.
  cbv zeta in H.
  bind_inv H. rename a into error_nodes, E into Hen.
  bind_inv H. rename a into nodes', E into Hget.
  bind_inv H. rename a into nodes'', E into Hext.
  clear H. unfold get_or in *.
  destruct (dict_get d "nodes") as [v|] eqn:Hd.
  - destruct v as [| | | | |l|]; cbn in Hiter;
      try discriminate Hiter;
      try (cbn [store_nodes] in Hget; cbn [py_getitem] in Hget;
           rewrite Hd in Hget; injection Hget as <-; discriminate Hext).
    injection Hiter as <-.
    unfold store_nodes, dict_mem in Hen. rewrite Hd in Hen.
    unfold add_error_handling_nodes in Hen. cbn [py_get bind] in Hen.
    rewrite get_or_set_same in Hen. cbn [py_iter bind] in Hen.
    bind_inv Hen. rename a into http_nodes, E into Hh.
    exists d, l, items1, http_nodes, imp.
    rewrite (enhance_document_run _ _ _ _ _ _ Hd Hn Hh) in H0.
    injection H0 as <- <-. repeat split; assumption.
  - exfalso. unfold store_nodes, dict_mem in Hget. rewrite Hd in Hget.
    cbn [py_getitem] in Hget. rewrite Hd in Hget. discriminate Hget.
Qed.

(** A file that was read and then written can be read back, and written
    and read again. *)
Lemma load_after_save (fs fs1 : filesystem) (path : string) (w w1 : json) :
  load fs path = Ok w ->
  save fs path w1 = Ok fs1 ->
  load fs1 path = Ok w1
  /\ forall w2, exists fs2, save fs1 path w2 = Ok fs2 /\ load fs2 path = Ok w2.
Proof.
  unfold load, save. intros Hl Hs.
  destruct (dict_get fs path) as [f|] eqn:Hf; [|discriminate Hl].
  destruct (readable f) eqn:Hr; [|discriminate Hl].
  destruct (data f) as [doc|msg|]; try discriminate Hl.
  destruct (writable f); [|discriminate Hs].
  injection Hs as <-. rewrite dict_get_set_same. cbn.
  split; [reflexivity|]. intros w2. eexists. split; [reflexivity|].
  rewrite dict_get_set_same. reflexivity.
Qed.

Lemma enhance_workflow_improved (fs fs1 : filesystem) (path : string)
  (imp : improvements) :
  enhance_workflow fs path = (fs1, Improved imp) ->
  exists w w1,
    load fs path = Ok w
    /\ enhance_document (basename path) w = Ok (w1, imp)
    /\ save fs path w1 = Ok fs1.
Proof.
  unfold enhance_workflow. intros H.
  destruct (enhance_workflow_try fs path) as [[fs' imp']|e] eqn:E;
    [|discriminate H].
  injection H as <- <-. unfold enhance_workflow_try in E.
  bind_inv E. rename a into w, E0 into Hl.
  bind_inv E. destruct a as [w1 imp0]. rename E0 into Hd.
  bind_inv E. injection E as <- <-. eauto.
Qed.

Lemma app_grows {A : Type} (l : list A) (x y : A) : (l ++ [x; y])%list <> l.
Proof.
  intros H. apply (f_equal (@List.length A)) in H.
  rewrite length_app in H. cbn in H. lia.
Qed.

(** C7.  After a run of the processor on a file, when the written
    document holds at least one HTTP Request node, its node list ends
    with the two error-handling nodes, and a second run on the file
    completes and writes the same document with the two nodes appended
    once more, under the ids they already have in the list: the second
    run does not leave the document as it was. *)
Theorem second_run_appends_second_pair (fs fs1 : filesystem)
  (workflow_path : string) (imp1 : improvements) (workflow1 : json) :
  enhance_workflow fs workflow_path = (fs1, Improved imp1) ->
  load fs1 workflow_path = Ok workflow1 ->
  contains_http_request workflow1 = true ->
  exists (d1 : dict) (nodes : list json) (fs2 : filesystem)
         (imp2 : improvements),
    workflow1 = JObj d1
    /\ dict_get d1 "nodes"
       = Some (JArr (nodes ++ [error_handler_node; fallback_node]))
    /\ enhance_workflow fs1 workflow_path = (fs2, Improved imp2)
    /\ load fs2 workflow_path
       = Ok (JObj (dict_set d1 "nodes"
                     (JArr ((nodes ++ [error_handler_node; fallback_node])
                            ++ [error_handler_node; fallback_node]))))
    /\ error_nodes_added imp2 = 2
    /\ load fs2 workflow_path <> load fs1 workflow_path
    /\ py_get error_handler_node "id" JNull
       = Ok (JStr "global-http-error-handler")
    /\ py_get fallback_node "id" JNull = Ok (JStr "fallback-data-provider").
Proof.
  intros Hrun Hload Hhttp.
  destruct (enhance_workflow_improved _ _ _ _ Hrun) as (w & w1 & Hl & Hd & Hs).
  destruct (load_after_save _ _ _ _ _ Hl Hs) as (Hl1 & Hagain).
  rewrite Hl1 in Hload. injection Hload as <-.
  destruct (enhance_document_ok _ _ _ _ Hd)
    as (d & items & items1 & hn & imp & -> & Hnodes & Hloop & Hhn & -> & ->).
  (* the first run appended the pair *)
  cbn [contains_http_request] in Hhttp.
  rewrite dict_get_set_same in Hhttp. rewrite existsb_app in Hhttp.
  assert (Hne : hn <> []).
  { rewrite (http_nodes_of_filter _ _ Hhn). apply filter_nonempty.
    destruct hn; [|now destruct (existsb node_is_http items1)].
    cbn [error_nodes_for existsb] in Hhttp.
    now rewrite orb_false_r in Hhttp. }
  assert (Hen : error_nodes_for hn = [error_handler_node; fallback_node])
    by (destruct hn; [contradiction | reflexivity]).
  rewrite Hen in *.
  set (pair := [error_handler_node; fallback_node]) in *.
  set (d1 := dict_set d "nodes" (JArr (items1 ++ pair))) in *.
  (* the second run *)
  destruct (enhance_nodes_again _ _ _ _ Hloop
              (new_improvements (basename workflow_path))) as (imp_b & Hloop2).
  pose proof (enhance_nodes_app _ _ _ _ _ _ _ Hloop2
                (enhance_nodes_error_nodes imp_b)) as Hloop3.
  assert (Hhn2 : http_nodes_of (items1 ++ pair) = Ok (hn ++ [])%list)
    by (apply http_nodes_of_app; [assumption | reflexivity]).
  assert (Hget1 : dict_get d1 "nodes" = Some (JArr (items1 ++ pair)))
    by apply dict_get_set_same.
  pose proof (enhance_document_run _ _ _ _ _ _ Hget1 Hloop3 Hhn2) as Hd2.
  rewrite app_nil_r, Hen in Hd2. fold pair in Hd2.
  destruct (Hagain (JObj (dict_set d1 "nodes" (JArr ((items1 ++ pair) ++ pair)))))
    as (fs2 & Hs2 & Hl2).
  exists d1, items1, fs2,
    (with_error_nodes_added imp_b (Z.of_nat (List.length pair))).
  split; [reflexivity|]. split; [exact Hget1|]. split.
  { unfold enhance_workflow, enhance_workflow_try.
    rewrite Hl1. cbn [bind]. rewrite Hd2. cbn [bind]. rewrite Hs2.
    reflexivity. }
  split; [exact Hl2|]. split; [reflexivity|]. split; [|split; reflexivity].
  rewrite Hl2, Hl1. intros [= Heq].
  apply (f_equal (fun x => dict_get x "nodes")) in Heq.
  rewrite dict_get_set_same, Hget1 in Heq. injection Heq as Heq.
  exact (app_grows _ _ _ Heq).
Qed.


(** * Further properties *)

(** ** Substrings *)

Lemma prefix_iff (p s : string) :
  String.prefix p s = true <-> exists post, s = p ++ post.
Proof.
  revert s. induction p as [|a p IH]; intros s.
  - destruct s; cbn; split; eauto.
  - destruct s as [|b s]; cbn.
    + split; [discriminate | intros (post & H); discriminate H].
    + destruct (ascii_dec a b) as [->|Hne].
      * rewrite IH. split.
        -- intros (post & ->). eauto.
        -- intros (post & [= ->]). eauto.
      * split; [discriminate|]. intros (post & [= Hab _]). congruence.
Qed.

Lemma append_assoc (a b c : string) : (a ++ b) ++ c = a ++ (b ++ c).
Proof. induction a as [|x a IH]; cbn; [reflexivity | now rewrite IH]. Qed.

(** [str_in kw s] holds exactly when [s] is some text, then [kw], then
    some text. *)
Lemma str_in_iff (kw s : string) :
  str_in kw s = true <-> exists pre post, s = pre ++ kw ++ post.
Proof.
  induction s as [|c s IH].
  - cbn [str_in]. rewrite orb_false_r, prefix_iff. split.
    + intros (post & H). exists "", post. exact H.
    + intros (pre & post & H). destruct pre as [|x pre]; [|discriminate H].
      eauto.
  - cbn [str_in]. rewrite orb_true_iff, prefix_iff, IH. split.
    + intros [(post & H)|(pre & post & H)].
      * exists "", post. exact H.
      * exists (String c pre), post. cbn. now rewrite H.
    + intros (pre & post & H). destruct pre as [|x pre].
      * left. eauto.
      * right. injection H as _ H. eauto.
Qed.

Lemma str_in_trans (a b c : string) :
  str_in a b = true -> str_in b c = true -> str_in a c = true.
Proof.
  rewrite !str_in_iff. intros (p1 & q1 & ->) (p2 & q2 & ->).
  exists (p2 ++ p1), (q1 ++ q2). now rewrite !append_assoc.
Qed.

(** ** Classification rules, continued *)

(** X1.  Whatever the name and the URL, a timeout that
    [get_timeout_config] returns is one of 10000, 15000, 20000, 25000
    and 30000 ms: the 10 to 30 seconds the script announces. *)
Theorem timeout_is_ten_to_thirty_seconds (node_name url : json) (timeout : Z) :
  get_timeout_config node_name url = Ok timeout ->
  In timeout [10000; 15000; 20000; 25000; 30000]
  /\ 10000 <= timeout <= 30000.
Proof.
  unfold get_timeout_config. intros H. bind_inv H. bind_inv H.
  repeat match type of H with
         | (if ?c then _ else _) = _ => destruct c
         end;
    injection H as <-; (split; [cbn; tauto | lia]).
Qed.

Lemma lower_if_truthy_ok (url : json) (url_lower : string) :
  lower_if_truthy url = Ok url_lower -> falsy_or is_str url = true.
Proof.
  unfold lower_if_truthy, falsy_or. destruct (truthy url); [|reflexivity].
  destruct url; cbn; try discriminate. reflexivity.
Qed.

(** X2.  A retry policy that [get_retry_config] returns is one of four,
    each enabled: 3 attempts 2000 ms apart, 2 attempts 3000 ms apart,
    3 attempts 1000 ms apart, 3 attempts 1500 ms apart.  The URL has no
    say in it: with any other URL that is a string or a false value the
    same policy comes back. *)
Theorem retry_is_one_of_four_and_ignores_url (node_name url retry : json) :
  get_retry_config node_name url = Ok retry ->
  In retry [retry_policy 3 2000; retry_policy 2 3000; retry_policy 3 1000;
            retry_policy 3 1500]
  /\ (forall url' : json,
         falsy_or is_str url' = true ->
         get_retry_config node_name url' = Ok retry).
Proof.
  unfold get_retry_config. intros H. bind_inv H. rename E into Hn.
  bind_inv H. rename E into Hu.
  assert (Hurl : forall url' : json,
             falsy_or is_str url' = true ->
             exists s, lower_if_truthy url' = Ok s)
    by exact lower_if_truthy_total.
  repeat match type of H with
         | (if ?c then _ else _) = _ => destruct c eqn:?
         end;
    injection H as <-;
    (split; [cbn; tauto|]);
    intros url' Hu'; rewrite Hn; cbn [bind];
    destruct (Hurl url' Hu') as (s & ->); cbn [bind];
    repeat match goal with
           | Hc : ?c = _ |- context [if ?c then _ else _] => rewrite Hc
           end; reflexivity.
Qed.

(** X3.  The two classifiers complete exactly on a string name with a URL
    that is a string or a false value.  A name that is not a string
    raises [AttributeError] for [lower]; with a string name, a URL that
    is true and not a string raises it too, also in [get_retry_config],
    which never looks at the URL. *)
Theorem classifiers_raise_on_non_strings (node_name url : json) :
  (is_str node_name = true -> falsy_or is_str url = true ->
   exists (timeout : Z) (retry : json),
     get_timeout_config node_name url = Ok timeout
     /\ get_retry_config node_name url = Ok retry)
  /\ (is_str node_name = false ->
      get_timeout_config node_name url
      = Raise (AttributeError (type_name node_name) "lower")
      /\ get_retry_config node_name url
         = Raise (AttributeError (type_name node_name) "lower"))
  /\ (is_str node_name = true -> falsy_or is_str url = false ->
      get_timeout_config node_name url
      = Raise (AttributeError (type_name url) "lower")
      /\ get_retry_config node_name url
         = Raise (AttributeError (type_name url) "lower")).
Proof.
  split; [|split].
  - intros Hn Hu. destruct node_name; try discriminate Hn.
    now apply classification_total.
  - intros Hn. destruct node_name; try discriminate Hn; split; reflexivity.
  - intros Hn Hu. destruct node_name; try discriminate Hn.
    unfold get_timeout_config, get_retry_config. cbn [py_lower bind].
    unfold falsy_or in Hu. apply orb_false_iff in Hu. destruct Hu as [Ht Hs].
    apply negb_false_iff in Ht. unfold lower_if_truthy. rewrite Ht.
    destruct url; try discriminate Hs; split; reflexivity.
Qed.

(** X4.  A name whose lower-cased form holds "mail" (so also one that
    holds "email") holds "ai": it gets the AI/ML timeout of 30000 ms,
    not the 15000 ms of the e-mail rule, and, when it holds no critical
    keyword, the AI policy of 2 attempts 3000 ms apart, not the
    notification policy. *)
Theorem mail_in_name_selects_ai_rules (name : string) (url : json) :
  str_in "mail" (lower name) = true \/ str_in "email" (lower name) = true ->
  falsy_or is_str url = true ->
  get_timeout_config (JStr name) url = Ok 30000
  /\ (any_in CRITICAL_KEYWORDS (lower name) = false ->
      get_retry_config (JStr name) url = Ok (retry_policy 2 3000)).
Proof.
  intros Hm Hu.
  assert (Hai : str_in "ai" (lower name) = true).
  { destruct Hm as [Hm|Hm].
    - exact (str_in_trans "ai" "mail" _ eq_refl Hm).
    - exact (str_in_trans "ai" "email" _ eq_refl Hm). }
  destruct (lower_if_truthy_total url Hu) as (s & Hs).
  unfold get_timeout_config, get_retry_config. cbn [py_lower bind].
  rewrite Hs. cbn [bind]. unfold CRITICAL_KEYWORDS.
  assert (H1 : any_in ["openai"; "gpt"; "ai"; "ml"] (lower name) = true).
  { unfold any_in. cbn [existsb]. rewrite Hai. now rewrite !orb_true_r. }
  assert (H2 : any_in ["openai"; "gpt"; "ai"] (lower name) = true).
  { unfold any_in. cbn [existsb]. rewrite Hai. now rewrite !orb_true_r. }
  rewrite H1, H2. split; [reflexivity|]. now intros ->.
Qed.

(** ** Header normalizer, continued *)

(** X5.  Normalizing normalized headers changes nothing: what
    [get_enhanced_headers] returns, it returns again when given its own
    result. *)
Theorem header_merge_is_idempotent (existing url url' headers : json) :
  get_enhanced_headers existing url = Ok headers ->
  get_enhanced_headers headers url' = Ok headers.
Proof.
  intros H. destruct (get_enhanced_headers_ok _ _ _ H) as (Hc & Hin).
  now apply get_enhanced_headers_again.
Qed.

Lemma set_default_list (items : list json) (key value : string) :
  set_default (JArr items) key value
  = if existsb (fun x => negb (py_ne_str x key)) items
    then Ok (JArr items)
    else Raise (TypeError "list indices must be integers or slices, not str").
Proof.
  unfold set_default. cbn [py_in bind].
  now destruct (existsb (fun x => negb (py_ne_str x key)) items).
Qed.

(** X6.  Headers that are a true value and not a mapping: a number, a
    [True] or a non-empty string has no [copy] and raises
    [AttributeError]; a non-empty list comes back as it is when it holds
    the four default names as elements, and raises [TypeError] at the
    first assignment otherwise. *)
Theorem headers_that_are_no_mapping (existing url : json) :
  truthy existing = true ->
  is_dict existing = false ->
  get_enhanced_headers existing url
  = match existing with
    | JArr items =>
        if holds_default_names items then Ok existing
        else Raise (TypeError "list indices must be integers or slices, not str")
    | _ => Raise (AttributeError (type_name existing) "copy")
    end.
Proof.
  intros Ht Hd. unfold get_enhanced_headers. rewrite Ht.
  destruct existing as [| | | | |items|]; try discriminate Hd;
    try reflexivity.
  cbn [py_copy bind]. unfold holds_default_names, DEFAULT_HEADERS.
  cbn [map fst forallb].
  repeat (rewrite set_default_list;
          match goal with
          | |- context [existsb ?f items] => destruct (existsb f items)
          end; cbn [bind andb]; try reflexivity).
Qed.

(** ** Node enhancer, continued *)

(** X7.  Enhancing an enhanced node gives the same node and the same
    answer: the second call assigns the values that are there. *)
Theorem enhancing_twice_is_enhancing_once (node node' : json) (b : bool) :
  enhance_http_node node = Ok (node', b) ->
  enhance_http_node node' = Ok (node', b).
Proof. exact (enhance_http_node_again node node' b). Qed.

(** X8.  A completed enhancement of an HTTP Request node keeps what the
    caller had set beside the entries it assigns: in the parameters,
    every entry other than [headers] and [options] (url, method,
    authentication, ...), and in the options every entry other than
    [timeout], [retry], [response] and [redirect], with their values and
    in their order. *)
Theorem enhancement_keeps_caller_settings (node : dict) (node' : json) :
  enhance_http_node (JObj node) = Ok (node', true) ->
  exists parameters options parameters' options' : dict,
    get_or node "parameters" (JObj []) = JObj parameters
    /\ get_or parameters "options" (JObj []) = JObj options
    /\ py_get node' "parameters" JNull = Ok (JObj parameters')
    /\ dict_get parameters' "options" = Some (JObj options')
    /\ filter (fun kv => negb (is_enhanced_parameter (fst kv))) parameters'
       = filter (fun kv => negb (is_enhanced_parameter (fst kv))) parameters
    /\ filter (fun kv => negb (is_enhanced_option (fst kv))) options'
       = filter (fun kv => negb (is_enhanced_option (fst kv))) options
    /\ (forall k : string,
           is_enhanced_parameter k = false ->
           dict_get parameters' k = dict_get parameters k)
    /\ (forall k : string,
           is_enhanced_option k = false ->
           dict_get options' k = dict_get options k).
Proof.
  intros H. apply enhance_http_node_true in H.
  destruct H as (d & p & o & t & r & h & Hd & _ & Hp & Ho & _ & _ & _ & ->).
  injection Hd as <-.
  assert (Hfp : filter (fun kv => negb (is_enhanced_parameter (fst kv)))
                  (dict_set (dict_set p "headers" h) "options"
                     (JObj (enhanced_options o t r)))
                = filter (fun kv => negb (is_enhanced_parameter (fst kv))) p).
  { now rewrite !(filter_dict_set (fun k => negb (is_enhanced_parameter k)))
      by reflexivity. }
  assert (Hfo : filter (fun kv => negb (is_enhanced_option (fst kv)))
                  (enhanced_options o t r)
                = filter (fun kv => negb (is_enhanced_option (fst kv))) o).
  { unfold enhanced_options.
    now rewrite !(filter_dict_set (fun k => negb (is_enhanced_option k)))
      by reflexivity. }
  exists p, o, (dict_set (dict_set p "headers" h) "options"
                  (JObj (enhanced_options o t r))), (enhanced_options o t r).
  split; [exact Hp|]. split; [exact Ho|]. split.
  { unfold enhanced_node. cbn [py_get].
    rewrite get_or_set_other by discriminate. now rewrite get_or_set_same. }
  split; [apply dict_get_set_same|].
  split; [exact Hfp|]. split; [exact Hfo|]. split.
  - intros k Hk.
    apply (dict_get_unfiltered (fun key => negb (is_enhanced_parameter key)));
      [exact Hfp | now rewrite Hk].
  - intros k Hk.
    apply (dict_get_unfiltered (fun key => negb (is_enhanced_option key)));
      [exact Hfo | now rewrite Hk].
Qed.

(** ** Workflow processor, continued *)

Lemma enhance_http_node_answer (node node' : json) (b : bool) :
  enhance_http_node node = Ok (node', b) ->
  b = node_is_http node /\ node_is_http node' = b /\ is_dict node' = true.
Proof.
  intros H. destruct b.
  - apply enhance_http_node_true in H.
    destruct H as (d & p & o & t & r & h & -> & Hty & _ & _ & _ & _ & _ & ->).
    cbn [node_is_http]. split; [now rewrite Hty|]. split; [|reflexivity].
    unfold enhanced_node. cbn [node_is_http]. unfold is_http_request.
    rewrite !get_or_set_other by discriminate. exact Hty.
  - apply enhance_http_node_false in H. destruct H as (d & -> & Hty & ->).
    cbn [node_is_http]. now rewrite Hty.
Qed.

Lemma get_timeout_reason_int (node_name url : json) (timeout : Z) :
  exists reason, _get_timeout_reason node_name url (JInt timeout) = Ok reason.
Proof.
  unfold _get_timeout_reason. cbn [py_ge bind].
  repeat match goal with
         | |- context [if ?c then _ else _] => destruct c; cbn [bind]
         end; eauto.
Qed.

Lemma get_specific_improvement_total (node_name url : json) (timeout : Z) :
  get_timeout_config node_name url = Ok timeout ->
  exists improvement, _get_specific_improvement node_name url = Ok improvement.
Proof.
  unfold get_timeout_config, _get_specific_improvement. intros H.
  bind_inv H. rewrite E. bind_inv H. rewrite E0. cbn [bind].
  repeat match goal with
         | |- context [if ?c then _ else _] => destruct c
         end; eauto.
Qed.

(** What the bookkeeping of the loop reads from an enhanced node. *)
Lemma record_improvement_enhanced (d p o : dict) (timeout attempts wait : Z)
  (headers : json) (imp : improvements) (reason improvement : string) :
  _get_timeout_reason (get_or d "name" (JStr "HTTP Request"))
    (get_or p "url" (JStr "")) (JInt timeout) = Ok reason ->
  _get_specific_improvement (get_or d "name" (JStr "HTTP Request"))
    (get_or p "url" (JStr "")) = Ok improvement ->
  record_improvement
    (enhanced_node d p o timeout (retry_policy attempts wait) headers) imp
  = Ok {| file := file imp;
          http_nodes_enhanced := http_nodes_enhanced imp + 1;
          error_nodes_added := error_nodes_added imp;
          timeout_configurations :=
            timeout_configurations imp
            ++ [{| tc_node := get_or d "name" (JStr "HTTP Request");
                   tc_timeout := JInt timeout; tc_reason := reason |}];
          retry_configurations :=
            retry_configurations imp
            ++ [{| rc_node := get_or d "name" (JStr "HTTP Request");
                   rc_max_attempts := JInt attempts;
                   rc_wait_between := JInt wait |}];
          specific_improvements :=
            specific_improvements imp ++ [improvement] |}.
Proof.
  intros Hreason Himp. unfold record_improvement, enhanced_node.
  set (o' := enhanced_options o timeout (retry_policy attempts wait)).
  set (p' := dict_set (dict_set p "headers" headers) "options" (JObj o')).
  cbn [py_get bind].
  rewrite !(get_or_set_other _ "onError") by discriminate.
  rewrite (get_or_set_other _ "parameters" "name") by discriminate.
  rewrite get_or_set_same. cbn [py_get bind].
  assert (Hurl : get_or p' "url" (JStr "") = get_or p "url" (JStr "")).
  { unfold p'. now rewrite !get_or_set_other by discriminate. }
  assert (Ho' : get_or p' "options" (JObj []) = JObj o').
  { unfold p'. apply get_or_set_same. }
  assert (Ht : get_or o' "timeout" (JInt 15000) = JInt timeout).
  { unfold o', enhanced_options.
    rewrite !get_or_set_other by discriminate. apply get_or_set_same. }
  assert (Hr : get_or o' "retry" (JObj []) = retry_policy attempts wait).
  { unfold o', enhanced_options.
    rewrite !get_or_set_other by discriminate. apply get_or_set_same. }
  rewrite Hurl, Ho'. cbn [py_get bind]. rewrite Ht, Hr, Hreason.
  cbn [bind]. unfold retry_policy at 1 2. cbn [py_get bind].
  rewrite Himp. reflexivity.
Qed.

(** The entries the loop adds for the HTTP Request nodes, in the order of
    the nodes, and the nodes it leaves in the list. *)
Lemma enhance_nodes_entries (nodes nodes' : list json) (imp imp' : improvements) :
  enhance_nodes nodes imp = Ok (nodes', imp') ->
  Forall2 (fun n n' => enhance_http_node n = Ok (n', node_is_http n)) nodes nodes'
  /\ exists (tcs : list timeout_configuration) (rcs : list retry_configuration)
            (sis : list string),
      file imp' = file imp
      /\ error_nodes_added imp' = error_nodes_added imp
      /\ http_nodes_enhanced imp'
         = http_nodes_enhanced imp
           + Z.of_nat (List.length (filter node_is_http nodes))
      /\ timeout_configurations imp' = (timeout_configurations imp ++ tcs)%list
      /\ retry_configurations imp' = (retry_configurations imp ++ rcs)%list
      /\ specific_improvements imp' = (specific_improvements imp ++ sis)%list
      /\ Forall2
           (fun n tc =>
              tc_node tc = name_of n
              /\ exists t : Z,
                  get_timeout_config (name_of n) (url_of n) = Ok t
                  /\ tc_timeout tc = JInt t
                  /\ _get_timeout_reason (name_of n) (url_of n) (JInt t)
                     = Ok (tc_reason tc))
           (filter node_is_http nodes) tcs
      /\ Forall2
           (fun n rc =>
              rc_node rc = name_of n
              /\ exists a w : Z,
                  get_retry_config (name_of n) (url_of n)
                  = Ok (retry_policy a w)
                  /\ rc_max_attempts rc = JInt a
                  /\ rc_wait_between rc = JInt w)
           (filter node_is_http nodes) rcs
      /\ Forall2
           (fun n s => _get_specific_improvement (name_of n) (url_of n) = Ok s)
           (filter node_is_http nodes) sis.
Proof.
  revert nodes' imp imp'.
  induction nodes as [|node rest IH]; intros nodes' imp imp' H; cbn in H.
  - injection H as <- <-. split; [constructor|].
    exists [], [], []. cbn. rewrite !app_nil_r, Z.add_0_r.
    repeat split; constructor.
  - bind_inv H. destruct a as [node1 enhanced]. rename E into Hnode.
    bind_inv H. rename a into imp1, E into Hrec.
    bind_inv H. destruct a as [rest1 imp2]. rename E into Hrest.
    injection H as <- <-.
    destruct (IH _ _ _ Hrest)
      as (Hall & tcs & rcs & sis & Hf & He & Hc & Ht & Hr & Hs & Ft & Fr & Fs).
    destruct (enhance_http_node_answer _ _ _ Hnode) as (Hb & _ & _).
    split; [constructor; [now rewrite <- Hb | exact Hall]|].
    cbn [filter]. rewrite <- Hb. destruct enhanced.
    + apply enhance_http_node_true in Hnode.
      destruct Hnode as (d & p & o & t & r & h & -> & _ & Hp & _ & Htc & Hrc & _ & ->).
      destruct (get_retry_config_ok _ _ _ Hrc) as (a & w & -> & _ & _).
      destruct (get_timeout_reason_int (get_or d "name" (JStr "HTTP Request"))
                  (get_or p "url" (JStr "")) t) as (reason & Hreason).
      destruct (get_specific_improvement_total _ _ _ Htc) as (si & Hsi).
      rewrite (record_improvement_enhanced _ _ _ _ _ _ _ _ _ _ Hreason Hsi)
        in Hrec.
      injection Hrec as <-. cbn in Hf, He, Hc, Ht, Hr, Hs.
      assert (Hurl : url_of (JObj d) = get_or p "url" (JStr ""))
        by (cbn [url_of]; now rewrite Hp).
      eexists (_ :: tcs), (_ :: rcs), (si :: sis).
      split; [exact Hf|]. split; [exact He|]. split.
      { rewrite Hc. cbn [List.length]. lia. }
      split; [rewrite Ht, <- app_assoc; reflexivity|].
      split; [rewrite Hr, <- app_assoc; reflexivity|].
      split; [rewrite Hs, <- app_assoc; reflexivity|].
      split; [|split].
      * constructor; [|exact Ft]. cbn [tc_node tc_timeout tc_reason name_of].
        split; [reflexivity|]. exists t. rewrite Hurl. auto.
      * constructor; [|exact Fr].
        cbn [rc_node rc_max_attempts rc_wait_between name_of].
        split; [reflexivity|]. exists a, w. rewrite Hurl. auto.
      * constructor; [|exact Fs]. cbn [name_of]. now rewrite Hurl.
    + injection Hrec as <-. exists tcs, rcs, sis. repeat split; assumption.
Qed.

Lemma Forall2_filter_length (nodes nodes' : list json) :
  Forall2 (fun n n' => enhance_http_node n = Ok (n', node_is_http n)) nodes nodes' ->
  List.length nodes' = List.length nodes
  /\ List.length (filter node_is_http nodes')
     = List.length (filter node_is_http nodes)
  /\ Forall (fun n' => is_dict n' = true) nodes'
  /\ Forall2 (fun n n' => node_is_http n = false -> n' = n) nodes nodes'.
Proof.
  induction 1 as [|n n' l l' Hn Hl IH]; cbn.
  - repeat split; constructor.
  - destruct IH as (IH1 & IH2 & IH3 & IH4).
    destruct (enhance_http_node_answer _ _ _ Hn) as (_ & Hb & Hd).
    rewrite Hb. split; [now rewrite IH1|]. split.
    + destruct (node_is_http n); cbn; now rewrite IH2.
    + split; constructor; try assumption.
      intros Hf. rewrite Hf in Hn. apply enhance_http_node_false in Hn.
      now destruct Hn as (_ & _ & _ & ->).
Qed.

Lemma error_nodes_for_count (http_nodes : list json) :
  error_nodes_for http_nodes
  = if Nat.eqb (List.length http_nodes) 0 then []
    else [error_handler_node; fallback_node].
Proof. now destruct http_nodes. Qed.

(** What a completed run of the work on a document did, in terms of the
    nodes the document came with. *)
Lemma enhance_document_spec (file_name : string) (workflow workflow' : json)
  (imp' : improvements) :
  enhance_document file_name workflow = Ok (workflow', imp') ->
  exists (d : dict) (items items1 : list json) (imp : improvements),
    workflow = JObj d
    /\ dict_get d "nodes" = Some (JArr items)
    /\ enhance_nodes items (new_improvements file_name) = Ok (items1, imp)
    /\ workflow'
       = JObj (dict_set d "nodes"
                 (JArr (items1
                        ++ (if Nat.eqb (List.length (filter node_is_http items)) 0
                            then []
                            else [error_handler_node; fallback_node]))))
    /\ imp'
       = with_error_nodes_added imp
           (if Nat.eqb (List.length (filter node_is_http items)) 0 then 0 else 2).
Proof.
  intros H. apply enhance_document_ok in H.
  destruct H as (d & items & items1 & hn & imp & -> & Hd & Hloop & Hhn & -> & ->).
  exists d, items, items1, imp.
  apply http_nodes_of_filter in Hhn. subst hn.
  destruct (enhance_nodes_entries _ _ _ _ Hloop) as (Hall & _).
  destruct (Forall2_filter_length _ _ Hall) as (_ & Hcount & _).
  rewrite error_nodes_for_count, Hcount.
  repeat split; try assumption.
  now destruct (Nat.eqb (List.length (filter node_is_http items)) 0).
Qed.

(** X9.  The processor on a document: its summary counts the HTTP Request
    nodes the document came with, holds one timeout entry, one retry
    entry and one improvement text per such node, and reports two error
    nodes added when there is at least one such node and none otherwise;
    the written node list is longer than the given one by that number. *)
Theorem summary_counts_the_http_nodes (file_name : string)
  (workflow workflow' : json) (imp : improvements) :
  enhance_document file_name workflow = Ok (workflow', imp) ->
  exists (d d' : dict) (items items' : list json),
    workflow = JObj d /\ workflow' = JObj d'
    /\ dict_get d "nodes" = Some (JArr items)
    /\ dict_get d' "nodes" = Some (JArr items')
    /\ file imp = file_name
    /\ http_nodes_enhanced imp
       = Z.of_nat (List.length (filter node_is_http items))
    /\ List.length (timeout_configurations imp)
       = List.length (filter node_is_http items)
    /\ List.length (retry_configurations imp)
       = List.length (filter node_is_http items)
    /\ List.length (specific_improvements imp)
       = List.length (filter node_is_http items)
    /\ error_nodes_added imp
       = (if Nat.eqb (List.length (filter node_is_http items)) 0 then 0 else 2)
    /\ Z.of_nat (List.length items')
       = Z.of_nat (List.length items) + error_nodes_added imp.
Proof.
  intros H. apply enhance_document_spec in H.
  destruct H as (d & items & items1 & imp0 & -> & Hd & Hloop & -> & ->).
  destruct (enhance_nodes_entries _ _ _ _ Hloop)
    as (Hall & tcs & rcs & sis & Hf & _ & Hc & Ht & Hr & Hs & Ft & Fr & Fs).
  destruct (Forall2_filter_length _ _ Hall) as (Hlen & _).
  cbn in Hf, Hc, Ht, Hr, Hs.
  eexists d, _, items, _. split; [reflexivity|]. split; [reflexivity|].
  split; [exact Hd|]. split; [apply dict_get_set_same|].
  cbn [with_error_nodes_added file http_nodes_enhanced error_nodes_added
         timeout_configurations retry_configurations specific_improvements].
  split; [exact Hf|]. split; [exact Hc|].
  split; [rewrite Ht; symmetry; exact (Forall2_length Ft)|].
  split; [rewrite Hr; symmetry; exact (Forall2_length Fr)|].
  split; [rewrite Hs; symmetry; exact (Forall2_length Fs)|].
  split; [reflexivity|].
  rewrite length_app, Hlen.
  destruct (Nat.eqb (List.length (filter node_is_http items)) 0); cbn; lia.
Qed.

(** X10.  A completed run keeps the document around its nodes: every
    entry of the document other than [nodes] (name, connections,
    settings, ...) stays, with its value and in its place; the node list
    holds, position by position, what [enhance_http_node] makes of the
    given nodes, a node that is no HTTP Request node being the node
    given; the error-handling nodes, if any, come after them. *)
Theorem run_keeps_document_and_node_order (file_name : string) (d : dict)
  (workflow' : json) (imp : improvements) :
  enhance_document file_name (JObj d) = Ok (workflow', imp) ->
  exists (d' : dict) (items items1 : list json),
    workflow' = JObj d'
    /\ filter (fun kv => negb (String.eqb (fst kv) "nodes")) d'
       = filter (fun kv => negb (String.eqb (fst kv) "nodes")) d
    /\ (forall k : string, k <> "nodes" -> dict_get d' k = dict_get d k)
    /\ dict_get d "nodes" = Some (JArr items)
    /\ dict_get d' "nodes"
       = Some (JArr (items1
                     ++ (if existsb node_is_http items
                         then [error_handler_node; fallback_node]
                         else [])))
    /\ Forall2 (fun n n1 => enhance_http_node n = Ok (n1, node_is_http n))
         items items1
    /\ Forall2 (fun n n1 => node_is_http n = false -> n1 = n) items items1.
Proof.
  intros H. apply enhance_document_spec in H.
  destruct H as (d0 & items & items1 & imp0 & [= <-] & Hd & Hloop & -> & ->).
  destruct (enhance_nodes_entries _ _ _ _ Hloop) as (Hall & _).
  destruct (Forall2_filter_length _ _ Hall) as (_ & _ & _ & Hsame).
  eexists _, items, items1. split; [reflexivity|]. split.
  { apply (filter_dict_set (fun k => negb (String.eqb k "nodes"))).
    reflexivity. }
  split; [intros k Hk; now apply dict_get_set_other|].
  split; [exact Hd|]. split; [|split; assumption].
  rewrite dict_get_set_same. do 3 f_equal.
  clear. induction items as [|n items IH]; cbn; [reflexivity|].
  destruct (node_is_http n); cbn; [reflexivity | exact IH].
Qed.

Lemma enhance_nodes_others (nodes : list json) (imp : improvements) :
  forallb other_node nodes = true ->
  enhance_nodes nodes imp = Ok (nodes, imp)
  /\ http_nodes_of nodes = Ok [].
Proof.
  induction nodes as [|node rest IH]; cbn; [auto|].
  intros H. apply andb_true_iff in H. destruct H as [Hn Hr].
  destruct (IH Hr) as (IH1 & IH2).
  destruct node as [| | | | | |d]; try discriminate Hn.
  cbn [other_node] in Hn. apply negb_true_iff in Hn.
  rewrite (enhance_http_node_other d Hn). cbn [bind]. rewrite IH1. cbn [bind].
  split; [reflexivity|]. cbn [py_get bind]. rewrite IH2. cbn [bind].
  unfold is_http_request in Hn. apply negb_false_iff in Hn. now rewrite Hn.
Qed.

(** X11.  On a file whose document holds a node list without any HTTP
    Request node, the processor changes nothing: no node is appended,
    the document written is the document read, every file holds the
    document it held, and the summary is blank, with both counters
    at 0. *)
Theorem workflow_without_http_nodes_is_unchanged (fs : filesystem)
  (workflow_path : string) (d : dict) (items : list json) :
  dict_get fs workflow_path
  = Some {| data := Document (JObj d); readable := true; writable := true |} ->
  dict_get d "nodes" = Some (JArr items) ->
  forallb other_node items = true ->
  enhance_document (basename workflow_path) (JObj d)
  = Ok (JObj d, new_improvements (basename workflow_path))
  /\ enhance_workflow fs workflow_path
     = (fs, Improved (new_improvements (basename workflow_path)))
  /\ http_nodes_enhanced (new_improvements (basename workflow_path)) = 0
  /\ error_nodes_added (new_improvements (basename workflow_path)) = 0.
Proof.
  intros Hfs Hd Hitems.
  destruct (enhance_nodes_others items
              (new_improvements (basename workflow_path)) Hitems) as (Hloop & Hhn).
  pose proof (enhance_document_run _ _ _ _ _ _ Hd Hloop Hhn) as Hdoc.
  cbn [error_nodes_for List.length] in Hdoc. rewrite app_nil_r in Hdoc.
  rewrite (dict_set_id d "nodes" _ Hd) in Hdoc.
  split; [exact Hdoc|]. split; [|split; reflexivity].
  unfold enhance_workflow, enhance_workflow_try, load, save.
  rewrite Hfs. cbn [readable data writable bind].
  rewrite Hdoc. cbn [bind].
  now rewrite (dict_set_id fs workflow_path _ Hfs).
Qed.

Lemma enhance_nodes_raises (nodes : list json) (node : json) (e : exn)
  (imp : improvements) :
  In node nodes ->
  enhance_http_node node = Raise e ->
  exists e', enhance_nodes nodes imp = Raise e'.
Proof.
  intros Hin Hraise. revert imp.
  induction nodes as [|n rest IH]; intros imp; [destruct Hin|].
  cbn [enhance_nodes].
  destruct (enhance_http_node n) as [[n1 b]|e1] eqn:Hn; cbn [bind]; [|eauto].
  destruct (if b then record_improvement n1 imp else Ok imp) as [imp1|e1];
    cbn [bind]; [|eauto].
  destruct Hin as [->|Hin]; [congruence|].
  destruct (IH Hin imp1) as (e' & ->). cbn [bind]. eauto.
Qed.

(** X12.  One node on which [enhance_http_node] raises fails the whole
    file: the processor returns the error record, and the file keeps the
    document it held, also for the nodes that come before the failing
    one and were enhanced in memory. *)
Theorem one_failing_node_fails_the_file (fs : filesystem)
  (workflow_path : string) (d : dict) (items : list json) (node : json)
  (e : exn) :
  load fs workflow_path = Ok (JObj d) ->
  dict_get d "nodes" = Some (JArr items) ->
  In node items ->
  enhance_http_node node = Raise e ->
  exists message : string,
    enhance_workflow fs workflow_path
    = (fs, Failed (basename workflow_path) message)
    /\ load (fst (enhance_workflow fs workflow_path)) workflow_path
       = Ok (JObj d).
Proof.
  intros Hl Hd Hin Hraise.
  destruct (enhance_nodes_raises items node e
              (new_improvements (basename workflow_path)) Hin Hraise)
    as (e' & He').
  exists (exn_str e').
  assert (H : enhance_workflow fs workflow_path
              = (fs, Failed (basename workflow_path) (exn_str e'))).
  { unfold enhance_workflow, enhance_workflow_try. rewrite Hl. cbn [bind].
    unfold enhance_document. cbn [py_get bind]. unfold get_or at 1.
    rewrite Hd. cbn [py_iter bind]. rewrite He'. reflexivity. }
  rewrite H. split; [reflexivity | exact Hl].
Qed.

Lemma enhance_http_node_processable (node : json) :
  processable_node node = true ->
  exists node', enhance_http_node node = Ok (node', node_is_http node).
Proof.
  destruct node as [| | | | | |d]; try discriminate. cbn [processable_node
    node_is_http]. intros H.
  destruct (is_http_request d) eqn:Hty.
  2:{ exists (JObj d). now apply enhance_http_node_other. }
  cbn [negb orb] in H.
  unfold well_typed_node in H. apply andb_true_iff in H. destruct H as [Hn Hp].
  apply absent_or_get_or with (dflt := JStr "HTTP Request") in Hn;
    [|reflexivity].
  apply absent_or_get_or with (dflt := JObj []) in Hp; [|reflexivity].
  destruct (get_or d "name" (JStr "HTTP Request")) as [| | | |name| |] eqn:En;
    try discriminate Hn.
  destruct (get_or d "parameters" (JObj [])) as [| | | | | |p] eqn:Ep;
    try discriminate Hp.
  cbn [well_typed_parameters] in Hp.
  apply andb_true_iff in Hp. destruct Hp as [Hp Hh].
  apply andb_true_iff in Hp. destruct Hp as [Hu Ho].
  apply absent_or_get_or with (dflt := JStr "") in Hu; [|reflexivity].
  apply absent_or_get_or with (dflt := JObj []) in Ho; [|reflexivity].
  apply absent_or_get_or with (dflt := JObj []) in Hh; [|reflexivity].
  destruct (get_or p "options" (JObj [])) as [| | | | | |o] eqn:Eo;
    try discriminate Ho.
  destruct (classification_total name _ Hu) as (t & r & Ht & Hr).
  destruct (get_enhanced_headers_total _ (get_or p "url" (JStr "")) Hh)
    as (h & Hh').
  eexists. apply enhance_http_node_http with (parameters := p) (options := o);
    try eassumption; rewrite En; eassumption.
Qed.

Lemma record_improvement_total (node node' : json) (imp : improvements) :
  enhance_http_node node = Ok (node', true) ->
  exists imp', record_improvement node' imp = Ok imp'.
Proof.
  intros H. apply enhance_http_node_true in H.
  destruct H as (d & p & o & t & r & h & -> & _ & _ & _ & Ht & Hr & _ & ->).
  destruct (get_retry_config_ok _ _ _ Hr) as (a & w & -> & _ & _).
  destruct (get_timeout_reason_int (get_or d "name" (JStr "HTTP Request"))
              (get_or p "url" (JStr "")) t) as (reason & Hreason).
  destruct (get_specific_improvement_total _ _ _ Ht) as (si & Hsi).
  rewrite (record_improvement_enhanced _ _ _ _ _ _ _ _ _ _ Hreason Hsi).
  eauto.
Qed.

(** The loop raises only where [enhance_http_node] does: the bookkeeping
    for an enhanced node always completes. *)
Lemma enhance_nodes_total (nodes : list json) (imp : improvements) :
  (forall node, In node nodes -> exists r, enhance_http_node node = Ok r) ->
  exists nodes' imp', enhance_nodes nodes imp = Ok (nodes', imp').
Proof.
  revert imp. induction nodes as [|n rest IH]; intros imp H; cbn [enhance_nodes].
  - eauto.
  - destruct (H n (or_introl eq_refl)) as ([n1 b] & Hn). rewrite Hn.
    cbn [bind].
    assert (Hrec : exists imp1,
               (if b then record_improvement n1 imp else Ok imp) = Ok imp1).
    { destruct b; [|eauto]. exact (record_improvement_total _ _ imp Hn). }
    destruct Hrec as (imp1 & ->). cbn [bind].
    destruct (IH imp1 (fun node Hin => H node (or_intror Hin)))
      as (rest1 & imp2 & ->).
    cbn [bind]. eauto.
Qed.

Lemma http_nodes_of_dicts (nodes : list json) :
  Forall (fun n => is_dict n = true) nodes ->
  exists http_nodes, http_nodes_of nodes = Ok http_nodes.
Proof.
  induction 1 as [|n l Hn Hl (hn & IH)]; cbn [http_nodes_of]; [eauto|].
  destruct n; try discriminate Hn. cbn [py_get bind]. rewrite IH. cbn [bind].
  eauto.
Qed.

(** X13.  A readable and writable file whose document holds a list of
    node records, each either no HTTP Request node or one with entries
    of the expected types, is always processed: the processor returns a
    summary, not an error record, and the file then holds the document
    with the nodes enhanced. *)
Theorem well_typed_workflow_is_processed (fs : filesystem)
  (workflow_path : string) (d : dict) (items : list json) :
  dict_get fs workflow_path
  = Some {| data := Document (JObj d); readable := true; writable := true |} ->
  dict_get d "nodes" = Some (JArr items) ->
  forallb processable_node items = true ->
  exists (fs' : filesystem) (imp : improvements) (workflow' : json),
    enhance_workflow fs workflow_path = (fs', Improved imp)
    /\ enhance_document (basename workflow_path) (JObj d)
       = Ok (workflow', imp)
    /\ load fs' workflow_path = Ok workflow'.
Proof.
  intros Hfs Hd Hitems.
  assert (Hall : forall node, In node items ->
                  exists r, enhance_http_node node = Ok r).
  { intros node Hin. rewrite forallb_forall in Hitems.
    destruct (enhance_http_node_processable node (Hitems node Hin)) as (n' & H).
    eauto. }
  destruct (enhance_nodes_total items
              (new_improvements (basename workflow_path)) Hall)
    as (items1 & imp1 & Hloop).
  destruct (enhance_nodes_entries _ _ _ _ Hloop) as (HF & _).
  destruct (Forall2_filter_length _ _ HF) as (_ & _ & Hdicts & _).
  destruct (http_nodes_of_dicts items1 Hdicts) as (hn & Hhn).
  pose proof (enhance_document_run _ _ _ _ _ _ Hd Hloop Hhn) as Hdoc.
  assert (Hl : load fs workflow_path = Ok (JObj d))
    by (unfold load; now rewrite Hfs).
  eexists _, _, _. split; [|split; [exact Hdoc|]].
  - unfold enhance_workflow, enhance_workflow_try. rewrite Hl. cbn [bind].
    rewrite Hdoc. cbn [bind]. unfold save. rewrite Hfs. cbn [writable bind].
    reflexivity.
  - unfold load. rewrite dict_get_set_same. reflexivity.
Qed.

(** ** The summary of a file *)

(** X15.  The summary of a completed run lists the HTTP Request nodes of
    the document in their order: the timeout entry of a node carries the
    name of the node, the timeout [get_timeout_config] selects for its
    name and URL (the one written into the node) and the rationale of
    that timeout; the retry entry carries the attempts and the wait of
    the policy [get_retry_config] selects; the improvement text is the
    one [_get_specific_improvement] gives. *)
Theorem summary_entries_follow_the_http_nodes (file_name : string) (d : dict)
  (items : list json) (workflow' : json) (imp : improvements) :
  enhance_document file_name (JObj d) = Ok (workflow', imp) ->
  dict_get d "nodes" = Some (JArr items) ->
  Forall2
    (fun n tc =>
       tc_node tc = name_of n
       /\ exists t : Z,
           get_timeout_config (name_of n) (url_of n) = Ok t
           /\ tc_timeout tc = JInt t
           /\ _get_timeout_reason (name_of n) (url_of n) (JInt t)
              = Ok (tc_reason tc))
    (filter node_is_http items) (timeout_configurations imp)
  /\ Forall2
       (fun n rc =>
          rc_node rc = name_of n
          /\ exists a w : Z,
              get_retry_config (name_of n) (url_of n) = Ok (retry_policy a w)
              /\ rc_max_attempts rc = JInt a
              /\ rc_wait_between rc = JInt w)
       (filter node_is_http items) (retry_configurations imp)
  /\ Forall2
       (fun n s => _get_specific_improvement (name_of n) (url_of n) = Ok s)
       (filter node_is_http items) (specific_improvements imp).
Proof.
  intros H Hd. apply enhance_document_spec in H.
  destruct H as (d0 & items0 & items1 & imp0 & [= <-] & Hd0 & Hloop & _ & ->).
  rewrite Hd in Hd0. injection Hd0 as <-.
  destruct (enhance_nodes_entries _ _ _ _ Hloop)
    as (_ & tcs & rcs & sis & _ & _ & _ & Ht & Hr & Hs & Ft & Fr & Fs).
  cbn in Ht, Hr, Hs.
  cbn [with_error_nodes_added timeout_configurations retry_configurations
         specific_improvements].
  rewrite Ht, Hr, Hs. auto.
Qed.

(** X16.  The rationale reported for a timeout follows the rule that
    selected it: AI/ML keywords give the AI/ML text, social-media URLs
    the social media text, slack the quick-timeout text, e-commerce URLs
    the e-commerce text, and the e-mail rule, the webhook rule and the
    default all give the webhook/dashboard text. *)
Theorem reason_follows_the_selected_rule (name : string) (url : json)
  (url_lower : string) (timeout : Z) :
  lower_if_truthy url = Ok url_lower ->
  get_timeout_config (JStr name) url = Ok timeout ->
  _get_timeout_reason (JStr name) url (JInt timeout)
  = Ok (first_match reason_rules DEFAULT_REASON (lower name) url_lower).
Proof.
  intros Hu. unfold get_timeout_config. cbn [py_lower bind]. rewrite Hu.
  cbn [bind]. unfold first_match, reason_rules, DEFAULT_REASON.
  cbn [applies outcome]. unfold name_has, url_has, either_has.
  unfold AI_ML_KEYWORDS, EMAIL_KEYWORDS, WEBHOOK_KEYWORDS, SOCIAL_KEYWORDS,
    ECOMMERCE_KEYWORDS.
  repeat match goal with
         | |- context [if ?c then _ else _] => destruct c
         end; intros [= <-]; reflexivity.
Qed.

(** ** Report generator: the counts *)

Lemma py_sum_cons (x : Z) (l : list Z) : py_sum (x :: l) = x + py_sum l.
Proof.
  unfold py_sum. cbn [fold_left]. rewrite Z.add_0_l.
  assert (H : forall a b, fold_left Z.add l (a + b) = a + fold_left Z.add l b).
  { induction l as [|y l IH]; intros a b; cbn [fold_left]; [reflexivity|].
    now rewrite <- Z.add_assoc, IH. }
  rewrite <- (Z.add_0_r x) at 1. apply H.
Qed.

Lemma enhance_workflow_counts (fs : filesystem) (workflow_path : string) :
  let s := snd (enhance_workflow fs workflow_path) in
  0 <= get_http_nodes_enhanced s
  /\ get_error_nodes_added s
     = (if get_http_nodes_enhanced s =? 0 then 0 else 2).
Proof.
  unfold enhance_workflow.
  destruct (enhance_workflow_try fs workflow_path) as [[fs' imp]|e] eqn:E;
    cbn; [|split; [lia | reflexivity]].
  unfold enhance_workflow_try in E.
  bind_inv E. bind_inv E. destruct a0 as [w1 imp1]. bind_inv E.
  injection E as <- <-. apply enhance_document_spec in E1.
  destruct E1 as (d & items & items1 & imp0 & _ & _ & Hloop & _ & ->).
  destruct (enhance_nodes_entries _ _ _ _ Hloop)
    as (_ & tcs & rcs & sis & _ & _ & Hc & _).
  cbn in Hc. cbn [with_error_nodes_added http_nodes_enhanced error_nodes_added].
  rewrite Hc. split; [lia|].
  destruct (List.length (filter node_is_http items)); reflexivity.
Qed.

(** X17.  The counts at the head of the report, on the summaries of a
    batch: the number of files is the number of files given; the total
    of error nodes is twice the number of summaries that report at least
    one enhanced HTTP Request node, so it is at most twice the total of
    enhanced nodes; the summaries without an error are at most the
    files. *)
Theorem report_counts_of_a_batch (fs : filesystem) (workflow_files : list string) :
  let all_improvements := snd (enhance_all_workflows fs workflow_files) in
  total_files all_improvements = Z.of_nat (List.length workflow_files)
  /\ total_error_nodes all_improvements
     = 2 * Z.of_nat
             (List.length
                (filter (fun s => 0 <? get_http_nodes_enhanced s)
                   all_improvements))
  /\ 0 <= total_error_nodes all_improvements
     <= 2 * total_http_nodes all_improvements
  /\ Z.of_nat (List.length (without_error all_improvements))
     <= total_files all_improvements.
Proof.
  cbv zeta. unfold total_files, total_error_nodes, total_http_nodes.
  revert fs. induction workflow_files as [|f rest IH]; intros fs.
  - cbn. repeat split; lia.
  - cbn [enhance_all_workflows].
    pose proof (enhance_workflow_counts fs f) as Hc. cbv zeta in Hc.
    destruct (enhance_workflow fs f) as [fs1 s]. cbn [snd] in Hc.
    specialize (IH fs1).
    destruct (enhance_all_workflows fs1 rest) as [fs2 all]. cbn [snd] in *.
    destruct IH as (I1 & I2 & I3 & I4). destruct Hc as (Hpos & Herr).
    cbn [map List.length filter without_error].
    rewrite !py_sum_cons, Herr. fold (without_error all).
    destruct (Z.eqb_spec (get_http_nodes_enhanced s) 0) as [Hz|Hz].
    + rewrite Hz. cbn [Z.ltb Z.compare].
      split; [lia|]. split; [lia|]. split; [lia|].
      destruct s; cbn [List.length]; lia.
    + assert (Hlt : (0 <? get_http_nodes_enhanced s) = true)
        by (apply Z.ltb_lt; lia).
      rewrite Hlt. cbn [List.length].
      split; [lia|]. split; [lia|]. split; [lia|].
      destruct s; cbn [List.length]; lia.
Qed.

(** ** Runs in a row *)

Lemma error_nodes_repeat_stable (n : nat) (imp : improvements) :
  enhance_nodes (List.concat (repeat [error_handler_node; fallback_node] n)) imp
  = Ok (List.concat (repeat [error_handler_node; fallback_node] n), imp)
  /\ http_nodes_of (List.concat (repeat [error_handler_node; fallback_node] n))
     = Ok [].
Proof.
  induction n as [|n (IH1 & IH2)]; cbn [repeat List.concat]; [split; reflexivity|].
  split.
  - exact (enhance_nodes_app _ _ _ _ _ _ _
             (enhance_nodes_error_nodes imp) IH1).
  - exact (http_nodes_of_app [error_handler_node; fallback_node] _ [] []
             eq_refl IH2).
Qed.

(** One more run on a document whose nodes are enhanced already. *)
Lemma enhance_document_again (file_name : string) (d : dict)
  (items http_nodes : list json) :
  dict_get d "nodes" = Some (JArr items) ->
  (forall imp, exists imp', enhance_nodes items imp = Ok (items, imp')) ->
  http_nodes_of items = Ok http_nodes ->
  http_nodes <> [] ->
  (exists imp,
      enhance_document file_name (JObj d)
      = Ok (JObj (dict_set d "nodes"
                    (JArr (items ++ [error_handler_node; fallback_node]))),
            imp))
  /\ (forall imp, exists imp',
         enhance_nodes (items ++ [error_handler_node; fallback_node]) imp
         = Ok ((items ++ [error_handler_node; fallback_node])%list, imp'))
  /\ http_nodes_of (items ++ [error_handler_node; fallback_node])
     = Ok http_nodes.
Proof.
  intros Hd Hstable Hhn Hne. split; [|split].
  - destruct (Hstable (new_improvements file_name)) as (imp' & Hloop).
    pose proof (enhance_document_run _ _ _ _ _ _ Hd Hloop Hhn) as Hdoc.
    destruct http_nodes; [contradiction|].
    cbn [error_nodes_for] in Hdoc. eauto.
  - intros imp. destruct (Hstable imp) as (imp' & Hloop). exists imp'.
    exact (enhance_nodes_app _ _ _ _ _ _ _ Hloop
             (enhance_nodes_error_nodes imp')).
  - rewrite <- (app_nil_r http_nodes).
    now apply http_nodes_of_app.
Qed.

Lemma enhance_document_times_again (n : nat) (file_name : string) (d : dict)
  (items http_nodes : list json) :
  dict_get d "nodes" = Some (JArr items) ->
  (forall imp, exists imp', enhance_nodes items imp = Ok (items, imp')) ->
  http_nodes_of items = Ok http_nodes ->
  http_nodes <> [] ->
  enhance_document_times n file_name (JObj d)
  = Ok (JObj (dict_set d "nodes"
                (JArr (items
                       ++ List.concat (repeat [error_handler_node; fallback_node] n))))).
Proof.
  revert d items.
  induction n as [|n IH]; intros d items Hd Hstable Hhn Hne;
    cbn [enhance_document_times repeat List.concat].
  - rewrite app_nil_r. now rewrite (dict_set_id d "nodes" _ Hd).
  - destruct (enhance_document_again file_name d items http_nodes
                Hd Hstable Hhn Hne) as ((imp & Hdoc) & Hstable' & Hhn').
    rewrite Hdoc. cbn [bind].
    rewrite (IH _ _ (dict_get_set_same d "nodes" _) Hstable' Hhn' Hne).
    now rewrite dict_set_set, <- app_assoc.
Qed.

(** X18.  Every further run appends the two error-handling nodes once
    more.  After a completed run that left at least one HTTP Request
    node in the document, [n] more runs complete and leave the node list
    of that run followed by [n] copies of the pair: the list grows by
    two nodes per run, and nothing else in the document changes. *)
Theorem each_further_run_appends_a_pair (file_name : string)
  (workflow workflow1 : json) (imp1 : improvements) (n : nat) :
  enhance_document file_name workflow = Ok (workflow1, imp1) ->
  contains_http_request workflow1 = true ->
  exists (d1 : dict) (items1 : list json),
    workflow1 = JObj d1
    /\ dict_get d1 "nodes" = Some (JArr items1)
    /\ enhance_document_times n file_name workflow1
       = Ok (JObj (dict_set d1 "nodes"
                     (JArr (items1
                            ++ List.concat
                                 (repeat [error_handler_node; fallback_node]
                                    n))))).
Proof.
  intros Hdoc Hhttp. apply enhance_document_ok in Hdoc.
  destruct Hdoc
    as (d & items & items1 & hn & imp & -> & Hnodes & Hloop & Hhn & -> & ->).
  cbn [contains_http_request] in Hhttp.
  rewrite dict_get_set_same, existsb_app in Hhttp.
  assert (Hne : hn <> []).
  { rewrite (http_nodes_of_filter _ _ Hhn). apply filter_nonempty.
    destruct hn; [|now destruct (existsb node_is_http items1)].
    cbn [error_nodes_for existsb] in Hhttp.
    now rewrite orb_false_r in Hhttp. }
  assert (Hen : error_nodes_for hn = [error_handler_node; fallback_node])
    by (destruct hn; [contradiction | reflexivity]).
  rewrite Hen in *.
  destruct (enhance_document_again file_name
              (dict_set d "nodes" (JArr items1)) items1 hn
              (dict_get_set_same d "nodes" _)
              (enhance_nodes_again _ _ _ _ Hloop) Hhn Hne)
    as (_ & Hstable & Hhn').
  eexists _, _. split; [reflexivity|].
  split; [apply dict_get_set_same|].
  exact (enhance_document_times_again n file_name _ _ hn
           (dict_get_set_same d "nodes" _) Hstable Hhn' Hne).
Qed.

End Enhancer.

(** * The properties on ASCII text

    The instances and counterexamples below run the definitions on
    ASCII names, URLs and paths, where [str.lower] is [ascii_lower] and
    [repr] is [ascii_repr]. *)

#[local] Existing Instance ASCII_TEXT.

(** A notification keyword and no critical keyword in the name do not
    suffice for the notification policy.  The name "Send Email" holds
    the keyword "email" and none of the critical keywords, yet "email"
    holds "ai", so the AI rule, which comes first, gives 2 attempts
    3000 ms apart; so does "GPT Alert", which holds "alert" and "gpt". *)
Lemma send_email_selects_ai_retry :
  (any_in NOTIFICATION_KEYWORDS (lower "Send Email") = true
   /\ any_in CRITICAL_KEYWORDS (lower "Send Email") = false
   /\ get_retry_config (JStr "Send Email") (JStr "")
      = Ok (JObj [("enabled", JBool true); ("maxAttempts", JInt 2);
                  ("waitBetween", JInt 3000)])
   /\ get_retry_config (JStr "Send Email") (JStr "")
      <> Ok (JObj [("enabled", JBool true); ("maxAttempts", JInt 3);
                   ("waitBetween", JInt 1000)]))
  /\ (any_in NOTIFICATION_KEYWORDS (lower "GPT Alert") = true
      /\ any_in CRITICAL_KEYWORDS (lower "GPT Alert") = false
      /\ get_retry_config (JStr "GPT Alert") (JStr "")
         = Ok (JObj [("enabled", JBool true); ("maxAttempts", JInt 2);
                     ("waitBetween", JInt 3000)])).
Proof.
  repeat split; try reflexivity.
  cbv. discriminate.
Qed.

Lemma notification_retry_send_alert :
  get_retry_config (JStr "Send Alert") (JStr "https://example.com/hook")
  = Ok (JObj [("enabled", JBool true); ("maxAttempts", JInt 3);
              ("waitBetween", JInt 1000)]).
Proof.
  apply (notification_retry_after_earlier_rules
           "Send Alert" "https://example.com/hook"); reflexivity.
Defined.

Lemma non_http_node_code_node :
  enhance_http_node
    (JObj [("id", JStr "n1"); ("name", JStr "Format OpenAI Prompt");
           ("type", JStr "n8n-nodes-base.code");
           ("parameters", JObj [("url", JStr "https://api.openai.com/v1/")])])
  = Ok (JObj [("id", JStr "n1"); ("name", JStr "Format OpenAI Prompt");
              ("type", JStr "n8n-nodes-base.code");
              ("parameters", JObj [("url", JStr "https://api.openai.com/v1/")])],
        false).
Proof.
  apply (non_http_node_is_left_unmodified
           [("id", JStr "n1"); ("name", JStr "Format OpenAI Prompt");
            ("type", JStr "n8n-nodes-base.code");
            ("parameters", JObj [("url", JStr "https://api.openai.com/v1/")])]).
  reflexivity.
Defined.

Lemma enhancement_keeps_other_fields_when_raised :
  exists fields : dict,
    node_after_call
      (JObj [("id", JStr "7"); ("name", JStr "Post to Slack");
             ("type", JStr HTTP_REQUEST);
             ("parameters",
              JObj [("options", JObj [("timeout", JInt 5)]);
                    ("headers", JStr "abc")]);
             ("position", JArr [JInt 100; JInt 200])])
    = JObj fields
    /\ filter (fun kv => negb (is_enhanced_field (fst kv))) fields
       = filter (fun kv => negb (is_enhanced_field (fst kv)))
           [("id", JStr "7"); ("name", JStr "Post to Slack");
            ("type", JStr HTTP_REQUEST);
            ("parameters",
             JObj [("options", JObj [("timeout", JInt 5)]);
                   ("headers", JStr "abc")]);
            ("position", JArr [JInt 100; JInt 200])]
    /\ (forall k : string,
           is_enhanced_field k = false ->
           dict_get fields k
           = dict_get
               [("id", JStr "7"); ("name", JStr "Post to Slack");
                ("type", JStr HTTP_REQUEST);
                ("parameters",
                 JObj [("options", JObj [("timeout", JInt 5)]);
                       ("headers", JStr "abc")]);
                ("position", JArr [JInt 100; JInt 200])] k)
    /\ (forall (node' : json) (b : bool),
           enhance_http_node
             (JObj [("id", JStr "7"); ("name", JStr "Post to Slack");
                    ("type", JStr HTTP_REQUEST);
                    ("parameters",
                     JObj [("options", JObj [("timeout", JInt 5)]);
                           ("headers", JStr "abc")]);
                    ("position", JArr [JInt 100; JInt 200])])
           = Ok (node', b) ->
           node' = JObj fields).
Proof.
  exact (enhancement_keeps_other_fields
           [("id", JStr "7"); ("name", JStr "Post to Slack");
            ("type", JStr HTTP_REQUEST);
            ("parameters",
             JObj [("options", JObj [("timeout", JInt 5)]);
                   ("headers", JStr "abc")]);
            ("position", JArr [JInt 100; JInt 200])]).
Defined.

(** The options of an enhanced node hold [neverError] one level below
    their [response] entry: that entry is a record with the one key
    [response], and has no [neverError] of its own. *)
Lemma response_entry_has_no_neverError :
  exists fields parameters options response : dict,
    enhance_http_node
      (JObj [("name", JStr "Fetch OpenAI Completion");
             ("type", JStr HTTP_REQUEST);
             ("parameters",
              JObj [("url", JStr "https://api.openai.com/v1/...")])])
    = Ok (JObj fields, true)
    /\ dict_get fields "parameters" = Some (JObj parameters)
    /\ dict_get parameters "options" = Some (JObj options)
    /\ dict_get options "response" = Some (JObj response)
    /\ dict_get response "neverError" = None
    /\ dict_get response "response" = Some (JObj [("neverError", JBool false)]).
Proof.
  eexists _, _, _, _. split; [lazy; reflexivity|].
  repeat split; reflexivity.
Qed.

Lemma enhanced_node_invariant_sample :
  exists (fields parameters options : dict) (headers : json)
         (timeout attempts wait : Z),
    enhanced_node
      [("name", JStr "Post to Slack"); ("type", JStr HTTP_REQUEST);
       ("parameters",
        JObj [("url", JStr "https://hooks.slack.com/services/T0");
              ("headers", JObj [("User-Agent", JStr "custom")])])]
      [("url", JStr "https://hooks.slack.com/services/T0");
       ("headers", JObj [("User-Agent", JStr "custom")])]
      [] 10000 (retry_policy 3 1500)
      (JObj (merged_headers [("User-Agent", JStr "custom")]))
    = JObj fields
    /\ dict_get fields "parameters" = Some (JObj parameters)
    /\ dict_get parameters "options" = Some (JObj options)
    /\ dict_get options "timeout" = Some (JInt timeout)
    /\ (dict_get options "retry" = Some (retry_policy attempts wait)
        /\ 1 <= attempts /\ 0 <= wait)
    /\ dict_get options "response"
       = Some (JObj [("response", JObj [("neverError", JBool false)])])
    /\ dict_get options "redirect"
       = Some (JObj [("followRedirects", JBool true); ("maxRedirects", JInt 3)])
    /\ dict_get parameters "headers" = Some headers
    /\ (forall k : string,
           In k ["User-Agent"; "Content-Type"; "Accept"; "Connection"] ->
           py_in k headers = Ok true)
    /\ (forall d p : dict,
           JObj
             [("name", JStr "Post to Slack"); ("type", JStr HTTP_REQUEST);
              ("parameters",
               JObj [("url", JStr "https://hooks.slack.com/services/T0");
                     ("headers", JObj [("User-Agent", JStr "custom")])])]
           = JObj d ->
           get_or d "parameters" (JObj []) = JObj p ->
           get_timeout_config (get_or d "name" (JStr "HTTP Request"))
             (get_or p "url" (JStr "")) = Ok timeout
           /\ get_retry_config (get_or d "name" (JStr "HTTP Request"))
                (get_or p "url" (JStr "")) = Ok (retry_policy attempts wait))
    /\ (forall d p existing : dict,
           JObj
             [("name", JStr "Post to Slack"); ("type", JStr HTTP_REQUEST);
              ("parameters",
               JObj [("url", JStr "https://hooks.slack.com/services/T0");
                     ("headers", JObj [("User-Agent", JStr "custom")])])]
           = JObj d ->
           get_or d "parameters" (JObj []) = JObj p ->
           get_or p "headers" (JObj []) = JObj existing ->
           headers = JObj (merged_headers existing))
    /\ dict_get fields "onError" = Some (JStr "continueRegularOutput").
Proof.
  apply (enhanced_node_invariant
           (JObj
              [("name", JStr "Post to Slack"); ("type", JStr HTTP_REQUEST);
               ("parameters",
                JObj [("url", JStr "https://hooks.slack.com/services/T0");
                      ("headers", JObj [("User-Agent", JStr "custom")])])])).
  reflexivity.
Defined.

(** The enhancement raises on entries of the wrong type: a string under
    [parameters] has no [get], a list under [options] takes no string
    key, a string under [headers] has no [copy]. *)
Lemma malformed_entries_raise :
  enhance_http_node
    (JObj [("name", JStr "Call API"); ("type", JStr HTTP_REQUEST);
           ("parameters", JStr "abc")])
  = Raise (AttributeError "str" "get")
  /\ enhance_http_node
       (JObj [("name", JStr "Call API"); ("type", JStr HTTP_REQUEST);
              ("parameters", JObj [("options", JArr [JStr "x"])])])
     = Raise (TypeError "list indices must be integers or slices, not str")
  /\ enhance_http_node
       (JObj [("name", JStr "Call API"); ("type", JStr HTTP_REQUEST);
              ("parameters", JObj [("headers", JStr "abc")])])
     = Raise (AttributeError "str" "copy").
Proof. repeat split. Qed.

Lemma well_typed_node_is_enhanced_sample :
  (exists node' : json,
      enhance_http_node
        (JObj [("name", JStr "Shopify Orders"); ("type", JStr HTTP_REQUEST);
               ("parameters",
                JObj [("url", JStr "https://shop.myshopify.com/orders");
                      ("headers", JNull)])])
      = Ok (node', true))
  /\ (forall existing url : json,
         truthy existing = false ->
         get_enhanced_headers existing url
         = get_enhanced_headers (JObj []) url).
Proof.
  apply (well_typed_node_is_enhanced
           [("name", JStr "Shopify Orders"); ("type", JStr HTTP_REQUEST);
            ("parameters",
             JObj [("url", JStr "https://shop.myshopify.com/orders");
                   ("headers", JNull)])]).
  right. reflexivity.
Defined.

Lemma failure_is_caught_unparsable_file :
  snd (enhance_workflow
         [("n8n-workflows/broken.json",
           {| data := Garbage "Expecting value: line 1 column 1 (char 0)";
              readable := true; writable := true |})]
         "n8n-workflows/broken.json")
  = Failed "broken.json" "Expecting value: line 1 column 1 (char 0)"
  /\ snd (enhance_all_workflows
            [("n8n-workflows/broken.json",
              {| data := Garbage "Expecting value: line 1 column 1 (char 0)";
                 readable := true; writable := true |})]
            ["n8n-workflows/broken.json"; "n8n-workflows/missing.json"])
     = [Failed "broken.json" "Expecting value: line 1 column 1 (char 0)";
        Failed "missing.json"
          "[Errno 2] No such file or directory: 'n8n-workflows/missing.json'"]
  /\ (forall (fs' : filesystem) (workflow_files : list string),
         map summary_file (snd (enhance_all_workflows fs' workflow_files))
         = map basename workflow_files)
  /\ (load
        [("n8n-workflows/broken.json",
          {| data := Garbage "Expecting value: line 1 column 1 (char 0)";
             readable := true; writable := true |})]
        "n8n-workflows/broken.json"
      = Raise (JSONDecodeError "Expecting value: line 1 column 1 (char 0)")
      \/ (exists workflow,
             load
               [("n8n-workflows/broken.json",
                 {| data := Garbage "Expecting value: line 1 column 1 (char 0)";
                    readable := true; writable := true |})]
               "n8n-workflows/broken.json"
             = Ok workflow
             /\ enhance_document (basename "n8n-workflows/broken.json") workflow
                = Raise (JSONDecodeError
                           "Expecting value: line 1 column 1 (char 0)")) ->
      fst (enhance_workflow
             [("n8n-workflows/broken.json",
               {| data := Garbage "Expecting value: line 1 column 1 (char 0)";
                  readable := true; writable := true |})]
             "n8n-workflows/broken.json")
      = [("n8n-workflows/broken.json",
          {| data := Garbage "Expecting value: line 1 column 1 (char 0)";
             readable := true; writable := true |})]).
Proof.
  refine (failure_is_caught_by_processor
            [("n8n-workflows/broken.json",
              {| data := Garbage "Expecting value: line 1 column 1 (char 0)";
                 readable := true; writable := true |})]
            "n8n-workflows/broken.json" ["n8n-workflows/missing.json"]
            (JSONDecodeError "Expecting value: line 1 column 1 (char 0)") _).
  left. reflexivity.
Defined.

Lemma second_run_on_one_node_workflow :
  exists (fs1 : filesystem) (imp1 : improvements) (workflow1 : json),
    enhance_workflow
      [("n8n-workflows/lead.json",
        {| data :=
             Document
               (JObj [("name", JStr "Lead scoring");
                      ("nodes",
                       JArr [JObj [("id", JStr "1");
                                   ("name", JStr "Fetch OpenAI Completion");
                                   ("type", JStr HTTP_REQUEST);
                                   ("parameters",
                                    JObj [("url",
                                           JStr "https://api.openai.com/v1/...")])]])]);
           readable := true; writable := true |})]
      "n8n-workflows/lead.json"
    = (fs1, Improved imp1)
    /\ load fs1 "n8n-workflows/lead.json" = Ok workflow1
    /\ contains_http_request workflow1 = true
    /\ exists (d1 : dict) (nodes : list json) (fs2 : filesystem)
              (imp2 : improvements),
        workflow1 = JObj d1
        /\ dict_get d1 "nodes"
           = Some (JArr (nodes ++ [error_handler_node; fallback_node]))
        /\ enhance_workflow fs1 "n8n-workflows/lead.json"
           = (fs2, Improved imp2)
        /\ load fs2 "n8n-workflows/lead.json"
           = Ok (JObj (dict_set d1 "nodes"
                         (JArr ((nodes ++ [error_handler_node; fallback_node])
                                ++ [error_handler_node; fallback_node]))))
        /\ error_nodes_added imp2 = 2
        /\ load fs2 "n8n-workflows/lead.json"
           <> load fs1 "n8n-workflows/lead.json"
        /\ py_get error_handler_node "id" JNull
           = Ok (JStr "global-http-error-handler")
        /\ py_get fallback_node "id" JNull
           = Ok (JStr "fallback-data-provider").
Proof.
  eexists _, _, _.
  split; [lazy; reflexivity|]. split; [lazy; reflexivity|].
  split; [reflexivity|].
  eapply (second_run_appends_second_pair
            [("n8n-workflows/lead.json",
              {| data :=
                   Document
                     (JObj [("name", JStr "Lead scoring");
                            ("nodes",
                             JArr [JObj [("id", JStr "1");
                                         ("name", JStr "Fetch OpenAI Completion");
                                         ("type", JStr HTTP_REQUEST);
                                         ("parameters",
                                          JObj [("url",
                                                 JStr "https://api.openai.com/v1/...")])]])]);
                 readable := true; writable := true |})]
            _ "n8n-workflows/lead.json");
    [lazy; reflexivity | lazy; reflexivity | reflexivity].
Defined.

Lemma timeout_is_ten_to_thirty_seconds_slack :
  In 10000 [10000; 15000; 20000; 25000; 30000] /\ 10000 <= 10000 <= 30000.
Proof.
  apply (timeout_is_ten_to_thirty_seconds
           (JStr "Notify Team") (JStr "https://hooks.slack.com/services/T0")).
  reflexivity.
Defined.

Lemma retry_is_one_of_four_and_ignores_url_sync :
  In (retry_policy 3 2000)
    [retry_policy 3 2000; retry_policy 2 3000; retry_policy 3 1000;
     retry_policy 3 1500]
  /\ (forall url' : json,
         falsy_or is_str url' = true ->
         get_retry_config (JStr "Sync CRM contacts") url'
         = Ok (retry_policy 3 2000)).
Proof.
  apply (retry_is_one_of_four_and_ignores_url
           (JStr "Sync CRM contacts") (JStr "https://crm.example.com/api")).
  reflexivity.
Defined.

Lemma classifiers_raise_on_numeric_url :
  get_timeout_config (JStr "Fetch orders") (JInt 8080)
  = Raise (AttributeError "int" "lower")
  /\ get_retry_config (JStr "Fetch orders") (JInt 8080)
     = Raise (AttributeError "int" "lower").
Proof.
  apply (classifiers_raise_on_non_strings (JStr "Fetch orders") (JInt 8080));
    reflexivity.
Defined.

Lemma mail_in_name_selects_ai_rules_sendgrid_mailer :
  get_timeout_config (JStr "SendGrid Mailer") (JStr "https://api.sendgrid.com/v3")
  = Ok 30000
  /\ (any_in CRITICAL_KEYWORDS (lower "SendGrid Mailer") = false ->
      get_retry_config (JStr "SendGrid Mailer") (JStr "https://api.sendgrid.com/v3")
      = Ok (retry_policy 2 3000)).
Proof.
  apply (mail_in_name_selects_ai_rules "SendGrid Mailer"
           (JStr "https://api.sendgrid.com/v3")).
  - left. reflexivity.
  - reflexivity.
Defined.

Lemma header_merge_is_idempotent_custom_agent :
  get_enhanced_headers
    (JObj [("User-Agent", JStr "custom");
           ("Content-Type", JStr "application/json");
           ("Accept", JStr "application/json, text/plain, */*");
           ("Connection", JStr "keep-alive")])
    JNull
  = Ok (JObj [("User-Agent", JStr "custom");
              ("Content-Type", JStr "application/json");
              ("Accept", JStr "application/json, text/plain, */*");
              ("Connection", JStr "keep-alive")]).
Proof.
  apply (header_merge_is_idempotent
           (JObj [("User-Agent", JStr "custom")]) (JStr "")).
  reflexivity.
Defined.

Lemma headers_that_are_no_mapping_list :
  get_enhanced_headers (JArr [JStr "Accept"; JStr "User-Agent"]) (JStr "")
  = Raise (TypeError "list indices must be integers or slices, not str").
Proof.
  apply (headers_that_are_no_mapping
           (JArr [JStr "Accept"; JStr "User-Agent"]) (JStr ""));
    reflexivity.
Defined.

Lemma enhancing_twice_is_enhancing_once_shopify :
  enhance_http_node
    (enhanced_node
       [("name", JStr "Shopify Orders"); ("type", JStr HTTP_REQUEST);
        ("parameters", JObj [("url", JStr "https://shop.myshopify.com/orders")])]
       [("url", JStr "https://shop.myshopify.com/orders")] [] 25000
       (retry_policy 3 1500) (JObj DEFAULT_HEADERS))
  = Ok (enhanced_node
          [("name", JStr "Shopify Orders"); ("type", JStr HTTP_REQUEST);
           ("parameters",
            JObj [("url", JStr "https://shop.myshopify.com/orders")])]
          [("url", JStr "https://shop.myshopify.com/orders")] [] 25000
          (retry_policy 3 1500) (JObj DEFAULT_HEADERS),
        true).
Proof.
  apply (enhancing_twice_is_enhancing_once
           (JObj [("name", JStr "Shopify Orders"); ("type", JStr HTTP_REQUEST);
                  ("parameters",
                   JObj [("url", JStr "https://shop.myshopify.com/orders")])])).
  reflexivity.
Defined.

Lemma enhancement_keeps_caller_settings_post :
  exists parameters options parameters' options' : dict,
    get_or
      [("name", JStr "Create order"); ("type", JStr HTTP_REQUEST);
       ("parameters",
        JObj [("method", JStr "POST");
              ("url", JStr "https://api.example.com/orders");
              ("options",
               JObj [("timeout", JInt 5); ("batching", JBool true)])])]
      "parameters" (JObj []) = JObj parameters
    /\ get_or parameters "options" (JObj []) = JObj options
    /\ py_get
         (enhanced_node
            [("name", JStr "Create order"); ("type", JStr HTTP_REQUEST);
             ("parameters",
              JObj [("method", JStr "POST");
                    ("url", JStr "https://api.example.com/orders");
                    ("options",
                     JObj [("timeout", JInt 5); ("batching", JBool true)])])]
            [("method", JStr "POST");
             ("url", JStr "https://api.example.com/orders");
             ("options", JObj [("timeout", JInt 5); ("batching", JBool true)])]
            [("timeout", JInt 5); ("batching", JBool true)]
            15000 (retry_policy 3 1500) (JObj DEFAULT_HEADERS))
         "parameters" JNull = Ok (JObj parameters')
    /\ dict_get parameters' "options" = Some (JObj options')
    /\ filter (fun kv => negb (is_enhanced_parameter (fst kv))) parameters'
       = filter (fun kv => negb (is_enhanced_parameter (fst kv))) parameters
    /\ filter (fun kv => negb (is_enhanced_option (fst kv))) options'
       = filter (fun kv => negb (is_enhanced_option (fst kv))) options
    /\ (forall k : string,
           is_enhanced_parameter k = false ->
           dict_get parameters' k = dict_get parameters k)
    /\ (forall k : string,
           is_enhanced_option k = false ->
           dict_get options' k = dict_get options k).
Proof.
  apply (enhancement_keeps_caller_settings
           [("name", JStr "Create order"); ("type", JStr HTTP_REQUEST);
            ("parameters",
             JObj [("method", JStr "POST");
                   ("url", JStr "https://api.example.com/orders");
                   ("options",
                    JObj [("timeout", JInt 5); ("batching", JBool true)])])]).
  reflexivity.
Defined.

Lemma summary_counts_the_http_nodes_two_of_three :
  exists (d d' : dict) (items items' : list json) (workflow' : json)
         (imp : improvements),
    enhance_document "orders.json"
      (JObj [("name", JStr "Orders");
             ("nodes",
              JArr [JObj [("name", JStr "Start");
                          ("type", JStr "n8n-nodes-base.manualTrigger")];
                    JObj [("name", JStr "Shopify Orders");
                          ("type", JStr HTTP_REQUEST);
                          ("parameters",
                           JObj [("url", JStr "https://s.myshopify.com/o")])];
                    JObj [("name", JStr "Post to Slack");
                          ("type", JStr HTTP_REQUEST)]])])
    = Ok (workflow', imp)
    /\ JObj [("name", JStr "Orders");
             ("nodes",
              JArr [JObj [("name", JStr "Start");
                          ("type", JStr "n8n-nodes-base.manualTrigger")];
                    JObj [("name", JStr "Shopify Orders");
                          ("type", JStr HTTP_REQUEST);
                          ("parameters",
                           JObj [("url", JStr "https://s.myshopify.com/o")])];
                    JObj [("name", JStr "Post to Slack");
                          ("type", JStr HTTP_REQUEST)]])]
       = JObj d
    /\ workflow' = JObj d'
    /\ dict_get d "nodes" = Some (JArr items)
    /\ dict_get d' "nodes" = Some (JArr items')
    /\ file imp = "orders.json"
    /\ http_nodes_enhanced imp
       = Z.of_nat (List.length (filter node_is_http items))
    /\ List.length (timeout_configurations imp)
       = List.length (filter node_is_http items)
    /\ List.length (retry_configurations imp)
       = List.length (filter node_is_http items)
    /\ List.length (specific_improvements imp)
       = List.length (filter node_is_http items)
    /\ error_nodes_added imp
       = (if Nat.eqb (List.length (filter node_is_http items)) 0 then 0 else 2)
    /\ Z.of_nat (List.length items')
       = Z.of_nat (List.length items) + error_nodes_added imp.
Proof.
  assert (H : exists workflow' imp,
             enhance_document "orders.json"
               (JObj [("name", JStr "Orders");
                      ("nodes",
                       JArr [JObj [("name", JStr "Start");
                                   ("type", JStr "n8n-nodes-base.manualTrigger")];
                             JObj [("name", JStr "Shopify Orders");
                                   ("type", JStr HTTP_REQUEST);
                                   ("parameters",
                                    JObj [("url",
                                           JStr "https://s.myshopify.com/o")])];
                             JObj [("name", JStr "Post to Slack");
                                   ("type", JStr HTTP_REQUEST)]])])
             = Ok (workflow', imp))
    by (eexists _, _; lazy; reflexivity).
  destruct H as (workflow' & imp & H).
  destruct (summary_counts_the_http_nodes _ _ _ _ H) as (d & d' & items & items' & R).
  exists d, d', items, items', workflow', imp. split; [exact H | exact R].
Defined.

Lemma run_keeps_document_and_node_order_sample :
  exists (workflow' : json) (imp : improvements)
         (d' : dict) (items items1 : list json),
    enhance_document "lead.json"
      (JObj [("name", JStr "Lead scoring");
             ("nodes",
              JArr [JObj [("name", JStr "Score with GPT");
                          ("type", JStr HTTP_REQUEST)];
                    JObj [("name", JStr "Done");
                          ("type", JStr "n8n-nodes-base.noOp")]]);
             ("connections", JObj []); ("active", JBool false)])
    = Ok (workflow', imp)
    /\ workflow' = JObj d'
    /\ filter (fun kv => negb (String.eqb (fst kv) "nodes")) d'
       = filter (fun kv => negb (String.eqb (fst kv) "nodes"))
           [("name", JStr "Lead scoring");
            ("nodes",
             JArr [JObj [("name", JStr "Score with GPT");
                         ("type", JStr HTTP_REQUEST)];
                   JObj [("name", JStr "Done");
                         ("type", JStr "n8n-nodes-base.noOp")]]);
            ("connections", JObj []); ("active", JBool false)]
    /\ (forall k : string,
           k <> "nodes" ->
           dict_get d' k
           = dict_get
               [("name", JStr "Lead scoring");
                ("nodes",
                 JArr [JObj [("name", JStr "Score with GPT");
                             ("type", JStr HTTP_REQUEST)];
                       JObj [("name", JStr "Done");
                             ("type", JStr "n8n-nodes-base.noOp")]]);
                ("connections", JObj []); ("active", JBool false)] k)
    /\ dict_get
         [("name", JStr "Lead scoring");
          ("nodes",
           JArr [JObj [("name", JStr "Score with GPT");
                       ("type", JStr HTTP_REQUEST)];
                 JObj [("name", JStr "Done");
                       ("type", JStr "n8n-nodes-base.noOp")]]);
          ("connections", JObj []); ("active", JBool false)] "nodes"
       = Some (JArr items)
    /\ dict_get d' "nodes"
       = Some (JArr (items1
                     ++ (if existsb node_is_http items
                         then [error_handler_node; fallback_node]
                         else [])))
    /\ Forall2 (fun n n1 => enhance_http_node n = Ok (n1, node_is_http n))
         items items1
    /\ Forall2 (fun n n1 => node_is_http n = false -> n1 = n) items items1.
Proof.
  assert (H : exists workflow' imp,
             enhance_document "lead.json"
               (JObj [("name", JStr "Lead scoring");
                      ("nodes",
                       JArr [JObj [("name", JStr "Score with GPT");
                                   ("type", JStr HTTP_REQUEST)];
                             JObj [("name", JStr "Done");
                                   ("type", JStr "n8n-nodes-base.noOp")]]);
                      ("connections", JObj []); ("active", JBool false)])
             = Ok (workflow', imp))
    by (eexists _, _; lazy; reflexivity).
  destruct H as (workflow' & imp & H).
  destruct (run_keeps_document_and_node_order _ _ _ _ H)
    as (d' & items & items1 & R).
  exists workflow', imp, d', items, items1. split; [exact H | exact R].
Defined.

Lemma workflow_without_http_nodes_is_unchanged_sample :
  enhance_document (basename "n8n-workflows/cron.json")
    (JObj [("name", JStr "Nightly"); ("nodes",
            JArr [JObj [("name", JStr "Cron");
                        ("type", JStr "n8n-nodes-base.cron")];
                  JObj [("name", JStr "Fetch rows")]])])
  = Ok (JObj [("name", JStr "Nightly"); ("nodes",
               JArr [JObj [("name", JStr "Cron");
                           ("type", JStr "n8n-nodes-base.cron")];
                     JObj [("name", JStr "Fetch rows")]])],
        new_improvements (basename "n8n-workflows/cron.json"))
  /\ enhance_workflow
       [("n8n-workflows/cron.json",
         {| data :=
              Document
                (JObj [("name", JStr "Nightly"); ("nodes",
                        JArr [JObj [("name", JStr "Cron");
                                    ("type", JStr "n8n-nodes-base.cron")];
                              JObj [("name", JStr "Fetch rows")]])]);
            readable := true; writable := true |})]
       "n8n-workflows/cron.json"
     = ([("n8n-workflows/cron.json",
          {| data :=
               Document
                 (JObj [("name", JStr "Nightly"); ("nodes",
                         JArr [JObj [("name", JStr "Cron");
                                     ("type", JStr "n8n-nodes-base.cron")];
                               JObj [("name", JStr "Fetch rows")]])]);
             readable := true; writable := true |})],
        Improved (new_improvements (basename "n8n-workflows/cron.json")))
  /\ http_nodes_enhanced (new_improvements (basename "n8n-workflows/cron.json"))
     = 0
  /\ error_nodes_added (new_improvements (basename "n8n-workflows/cron.json"))
     = 0.
Proof.
  apply (workflow_without_http_nodes_is_unchanged
           [("n8n-workflows/cron.json",
             {| data :=
                  Document
                    (JObj [("name", JStr "Nightly"); ("nodes",
                            JArr [JObj [("name", JStr "Cron");
                                        ("type", JStr "n8n-nodes-base.cron")];
                                  JObj [("name", JStr "Fetch rows")]])]);
                readable := true; writable := true |})]
           "n8n-workflows/cron.json"
           [("name", JStr "Nightly"); ("nodes",
             JArr [JObj [("name", JStr "Cron");
                         ("type", JStr "n8n-nodes-base.cron")];
                   JObj [("name", JStr "Fetch rows")]])]
           [JObj [("name", JStr "Cron"); ("type", JStr "n8n-nodes-base.cron")];
            JObj [("name", JStr "Fetch rows")]]);
    reflexivity.
Defined.

Lemma one_failing_node_fails_the_file_sample :
  exists message : string,
    enhance_workflow
      [("n8n-workflows/sync.json",
        {| data :=
             Document
               (JObj [("nodes",
                       JArr [JObj [("name", JStr "Sync contacts");
                                   ("type", JStr HTTP_REQUEST)];
                             JObj [("name", JNull);
                                   ("type", JStr HTTP_REQUEST)]])]);
           readable := true; writable := true |})]
      "n8n-workflows/sync.json"
    = ([("n8n-workflows/sync.json",
         {| data :=
              Document
                (JObj [("nodes",
                        JArr [JObj [("name", JStr "Sync contacts");
                                    ("type", JStr HTTP_REQUEST)];
                              JObj [("name", JNull);
                                    ("type", JStr HTTP_REQUEST)]])]);
            readable := true; writable := true |})],
       Failed (basename "n8n-workflows/sync.json") message)
    /\ load
         (fst (enhance_workflow
                 [("n8n-workflows/sync.json",
                   {| data :=
                        Document
                          (JObj [("nodes",
                                  JArr [JObj [("name", JStr "Sync contacts");
                                              ("type", JStr HTTP_REQUEST)];
                                        JObj [("name", JNull);
                                              ("type", JStr HTTP_REQUEST)]])]);
                      readable := true; writable := true |})]
                 "n8n-workflows/sync.json"))
         "n8n-workflows/sync.json"
       = Ok (JObj [("nodes",
                    JArr [JObj [("name", JStr "Sync contacts");
                                ("type", JStr HTTP_REQUEST)];
                          JObj [("name", JNull);
                                ("type", JStr HTTP_REQUEST)]])]).
Proof.
  apply (one_failing_node_fails_the_file _ _ _
           [JObj [("name", JStr "Sync contacts"); ("type", JStr HTTP_REQUEST)];
            JObj [("name", JNull); ("type", JStr HTTP_REQUEST)]]
           (JObj [("name", JNull); ("type", JStr HTTP_REQUEST)])
           (AttributeError "NoneType" "lower")).
  - reflexivity.
  - reflexivity.
  - right. left. reflexivity.
  - reflexivity.
Defined.

Lemma well_typed_workflow_is_processed_sample :
  exists (fs' : filesystem) (imp : improvements) (workflow' : json),
    enhance_workflow
      [("n8n-workflows/mail.json",
        {| data :=
             Document
               (JObj [("nodes",
                       JArr [JObj [("name", JStr "Send via SendGrid");
                                   ("type", JStr HTTP_REQUEST);
                                   ("parameters", JObj [("url", JNull)])];
                             JObj [("type", JStr "n8n-nodes-base.set");
                                   ("parameters", JStr "raw")]])]);
           readable := true; writable := true |})]
      "n8n-workflows/mail.json"
    = (fs', Improved imp)
    /\ enhance_document (basename "n8n-workflows/mail.json")
         (JObj [("nodes",
                 JArr [JObj [("name", JStr "Send via SendGrid");
                             ("type", JStr HTTP_REQUEST);
                             ("parameters", JObj [("url", JNull)])];
                       JObj [("type", JStr "n8n-nodes-base.set");
                             ("parameters", JStr "raw")]])])
       = Ok (workflow', imp)
    /\ load fs' "n8n-workflows/mail.json" = Ok workflow'.
Proof.
  apply (well_typed_workflow_is_processed _ _ _
           [JObj [("name", JStr "Send via SendGrid");
                  ("type", JStr HTTP_REQUEST);
                  ("parameters", JObj [("url", JNull)])];
            JObj [("type", JStr "n8n-nodes-base.set");
                  ("parameters", JStr "raw")]]);
    reflexivity.
Defined.

Lemma reason_follows_the_selected_rule_sendgrid :
  _get_timeout_reason (JStr "SendGrid dispatch")
    (JStr "https://api.sendgrid.com/v3/send") (JInt 15000)
  = Ok "Standard timeout for webhook/dashboard operations".
Proof.
  exact (reason_follows_the_selected_rule "SendGrid dispatch"
           (JStr "https://api.sendgrid.com/v3/send")
           "https://api.sendgrid.com/v3/send" 15000 eq_refl eq_refl).
Defined.

Lemma summary_entries_follow_the_http_nodes_sample :
  exists (workflow' : json) (imp : improvements),
    enhance_document "social.json"
      (JObj [("nodes",
              JArr [JObj [("name", JStr "Webhook in");
                          ("type", JStr "n8n-nodes-base.webhook")];
                    JObj [("name", JStr "Post update");
                          ("type", JStr HTTP_REQUEST);
                          ("parameters",
                           JObj [("url", JStr "https://api.twitter.com/2/t")])]])])
    = Ok (workflow', imp)
    /\ Forall2
         (fun n tc =>
            tc_node tc = name_of n
            /\ exists t : Z,
                get_timeout_config (name_of n) (url_of n) = Ok t
                /\ tc_timeout tc = JInt t
                /\ _get_timeout_reason (name_of n) (url_of n) (JInt t)
                   = Ok (tc_reason tc))
         (filter node_is_http
            [JObj [("name", JStr "Webhook in");
                   ("type", JStr "n8n-nodes-base.webhook")];
             JObj [("name", JStr "Post update");
                   ("type", JStr HTTP_REQUEST);
                   ("parameters",
                    JObj [("url", JStr "https://api.twitter.com/2/t")])]])
         (timeout_configurations imp)
    /\ Forall2
         (fun n rc =>
            rc_node rc = name_of n
            /\ exists a w : Z,
                get_retry_config (name_of n) (url_of n) = Ok (retry_policy a w)
                /\ rc_max_attempts rc = JInt a
                /\ rc_wait_between rc = JInt w)
         (filter node_is_http
            [JObj [("name", JStr "Webhook in");
                   ("type", JStr "n8n-nodes-base.webhook")];
             JObj [("name", JStr "Post update");
                   ("type", JStr HTTP_REQUEST);
                   ("parameters",
                    JObj [("url", JStr "https://api.twitter.com/2/t")])]])
         (retry_configurations imp)
    /\ Forall2
         (fun n s => _get_specific_improvement (name_of n) (url_of n) = Ok s)
         (filter node_is_http
            [JObj [("name", JStr "Webhook in");
                   ("type", JStr "n8n-nodes-base.webhook")];
             JObj [("name", JStr "Post update");
                   ("type", JStr HTTP_REQUEST);
                   ("parameters",
                    JObj [("url", JStr "https://api.twitter.com/2/t")])]])
         (specific_improvements imp).
Proof.
  eexists _, _. split; [lazy; reflexivity|].
  eapply (summary_entries_follow_the_http_nodes "social.json"
            [("nodes",
              JArr [JObj [("name", JStr "Webhook in");
                          ("type", JStr "n8n-nodes-base.webhook")];
                    JObj [("name", JStr "Post update");
                          ("type", JStr HTTP_REQUEST);
                          ("parameters",
                           JObj [("url", JStr "https://api.twitter.com/2/t")])]])]);
    [lazy; reflexivity | reflexivity].
Defined.

Lemma each_further_run_appends_a_pair_three_runs :
  exists (workflow1 : json) (imp1 : improvements)
         (d1 : dict) (items1 : list json),
    enhance_document "lead.json"
      (JObj [("nodes",
              JArr [JObj [("name", JStr "Score with GPT");
                          ("type", JStr HTTP_REQUEST)]])])
    = Ok (workflow1, imp1)
    /\ workflow1 = JObj d1
    /\ dict_get d1 "nodes" = Some (JArr items1)
    /\ enhance_document_times 3 "lead.json" workflow1
       = Ok (JObj (dict_set d1 "nodes"
                     (JArr (items1
                            ++ List.concat
                                 (repeat [error_handler_node; fallback_node]
                                    3))))).
Proof.
  assert (H : exists workflow1 imp1,
             enhance_document "lead.json"
               (JObj [("nodes",
                       JArr [JObj [("name", JStr "Score with GPT");
                                   ("type", JStr HTTP_REQUEST)]])])
             = Ok (workflow1, imp1)
             /\ contains_http_request workflow1 = true)
    by (eexists _, _; split; [lazy; reflexivity | reflexivity]).
  destruct H as (workflow1 & imp1 & H & Hhttp).
  destruct (each_further_run_appends_a_pair _ _ _ _ 3 H Hhttp)
    as (d1 & items1 & R).
  exists workflow1, imp1, d1, items1. split; [exact H | exact R].
Defined.
